(** * URL shortener backend: registry, validators and request handlers

    A shallow embedding of the backend of the URL shortener
    (services/validationService.js, services/urlService.js and
    controllers/urlController.js; the last two are listed after the
    validators and after the router, in services/validationService.js
    and routes/urlRoutes.js) together with the properties of its
    registry, redirect and statistics pipeline.

    Conventions of the embedding:
    - a JavaScript string is a [string]: a sequence of code units, here
      restricted to the code units 0..255 (one [ascii] each), so that
      [String.length] is the [.length] of the source;
    - an instant (the value of [Date.now()], or of a [Date]) is a [Z],
      the number of milliseconds since the epoch.  The source stores
      instants as ISO-8601 strings ([toISOString]) and reads them back
      with [new Date(...)]; that encoding is lossless at millisecond
      precision, so the embedding keeps the number.  Clock readings are
      taken inside the range of [Date], where [toISOString] does not
      throw;
    - the in-memory [Map] called [urlStorage] is a [gmap string UrlEntry].
      A [Map] iterates in insertion order and a [gmap] does not keep that
      order; the two functions that iterate ([getAllUrls] and
      [cleanupExpiredUrls]) are embedded over [map_to_list], and nothing
      proved below depends on the order;
    - a request field that the handlers use as a string ([url],
      [shortcode], the headers) is an [option string], [None] standing
      for [undefined] or [null]; the [validity] field, which the source
      tests for its type, is a [JS.Value];
    - third-party packages (the WHATWG [URL] parser, geoip-lite,
      ua-parser-js) are parameters of the development, bundled in the
      class [Platform]; nanoid is embedded from its published algorithm,
      with the random bytes it consumes made explicit;
    - calls to the logging middleware have no effect on the registry or
      on the response, and are left out;
    - the pure helpers of the client (utils/helpers.jsx: the form
      validators and the display helpers) are embedded in [Helpers], so
      that what the client lets through can be compared with what the
      server accepts. *)

From Stdlib Require Import ZArith QArith Ascii String List Bool Lia.
From stdpp Require Import gmap strings list fin_maps pretty.

Local Close Scope Q_scope.
Local Open Scope string_scope.
Local Open Scope Z_scope.

(* ===================================================================== *)
(** ** JavaScript values and string primitives *)
(* ===================================================================== *)

Module JS.

(** A JavaScript number: a finite double is represented by the rational
    it denotes; the three non-finite doubles are kept apart. *)
Inductive Number :=
| Finite (q : Q)
| NaN
| PosInfinity
| NegInfinity.

(** The values a JSON request body can carry in one field ([Absent] is
    [undefined]: the field is missing from the body). *)
Inductive Value :=
| Absent
| Null
| Boolean (b : bool)
| Num (n : Number)
| Str (s : string)
| Compound.   (* an array or an object *)

Definition isIntegral (q : Q) : bool :=
  Z.rem (Qnum q) (Z.pos (Qden q)) =? 0.

(** [Number.isInteger(v)] *)
Definition Number_isInteger (v : Value) : bool :=
  match v with
  | Num (Finite q) => isIntegral q
  | _ => false
  end.

(** [v < k] and [v > k] for a value that passed [Number.isInteger]. *)
Definition ltNum (v : Value) (k : Z) : bool :=
  match v with
  | Num (Finite q) => Qnum q <? k * Z.pos (Qden q)
  | _ => false
  end.

Definition gtNum (v : Value) (k : Z) : bool :=
  match v with
  | Num (Finite q) => k * Z.pos (Qden q) <? Qnum q
  | _ => false
  end.

(** The integer a number denotes, truncating toward zero (what
    [new Date(t)] keeps of [t]). *)
Definition toInteger (v : Value) : Z :=
  match v with
  | Num (Finite q) => Z.quot (Qnum q) (Z.pos (Qden q))
  | _ => 0
  end.

Definition ofZ (z : Z) : Value := Num (Finite (inject_Z z)).

(** Truthiness of an optional string: [undefined], [null] and [""] are
    falsy. *)
Definition truthy (o : option string) : bool :=
  match o with
  | Some (String _ _) => true
  | _ => false
  end.

(** [a || d] for an optional string [a] and a string [d]. *)
Definition orElse (o : option string) (d : string) : string :=
  match o with
  | Some (String c s) => String c s
  | _ => d
  end.

Definition code (c : ascii) : Z := Z.of_nat (nat_of_ascii c).

Definition inRange (lo hi : Z) (c : ascii) : bool :=
  (lo <=? code c) && (code c <=? hi).

(** The class [[a-zA-Z0-9]]. *)
Definition isAlnum (c : ascii) : bool :=
  inRange 97 122 c || inRange 65 90 c || inRange 48 57 c.

(** White space and line terminators removed by [String.prototype.trim],
    among the code units 0..255: TAB, LF, VT, FF, CR, SP and NBSP. *)
Definition isWhite (c : ascii) : bool :=
  inRange 9 13 c || (code c =? 32) || (code c =? 160).

Fixpoint trimStart (s : string) : string :=
  match s with
  | String c s' => if isWhite c then trimStart s' else s
  | EmptyString => EmptyString
  end.

Fixpoint trimEnd (s : string) : string :=
  match s with
  | String c s' =>
      match trimEnd s' with
      | EmptyString => if isWhite c then EmptyString else String c EmptyString
      | t => String c t
      end
  | EmptyString => EmptyString
  end.

(** [s.trim()] *)
Definition trim (s : string) : string := trimEnd (trimStart s).

(** [toLowerCase] on one code unit: A-Z, and the Latin-1 capitals
    U+00C0..U+00DE other than the multiplication sign U+00D7. *)
Definition lowerChar (c : ascii) : ascii :=
  if inRange 65 90 c || (inRange 192 222 c && negb (code c =? 215))
  then ascii_of_nat (nat_of_ascii c + 32)
  else c.

Fixpoint toLowerCase (s : string) : string :=
  match s with
  | String c s' => String (lowerChar c) (toLowerCase s')
  | EmptyString => EmptyString
  end.

Fixpoint allChars (p : ascii -> bool) (s : string) : bool :=
  match s with
  | String c s' => p c && allChars p s'
  | EmptyString => true
  end.

Fixpoint hasChar (c : ascii) (s : string) : bool :=
  match s with
  | String d s' => Ascii.eqb c d || hasChar c s'
  | EmptyString => false
  end.

(** [s.startsWith(c)] and [s.endsWith(c)] for a one-character [c]. *)
Definition startsWithChar (c : ascii) (s : string) : bool :=
  match s with
  | String d _ => Ascii.eqb c d
  | EmptyString => false
  end.

Fixpoint endsWithChar (c : ascii) (s : string) : bool :=
  match s with
  | String d EmptyString => Ascii.eqb c d
  | String _ s' => endsWithChar c s'
  | EmptyString => false
  end.

(** [list.includes(s)] on an array of strings. *)
Definition includes (l : list string) (s : string) : bool :=
  existsb (String.eqb s) l.

(** A regular expression of the shape [/^[class]+$/] (no flags): the
    whole input is a non-empty run of characters of the class. *)
Definition testClassPlus (p : ascii -> bool) (s : string) : bool :=
  match s with
  | EmptyString => false
  | _ => allChars p s
  end.

(** Line terminators, which [.] does not match (LF and CR among the
    code units 0..255). *)
Definition isLineTerminator (c : ascii) : bool :=
  (code c =? 10) || (code c =? 13).

(** [afterLastColon s]: when the first line of [s] holds a colon, what
    follows the last such colon (up to the end of [s]). *)
Fixpoint afterLastColon (s : string) : option string :=
  match s with
  | EmptyString => None
  | String c s' =>
      if isLineTerminator c then None
      else match afterLastColon s' with
           | Some t => Some t
           | None => if Ascii.eqb c ":" then Some s' else None
           end
  end.

(** [s.replace(/^.*:/, '')]: the greedy match runs from the start of
    the input to the last colon of its first line. *)
Definition stripThroughLastColon (s : string) : string :=
  match afterLastColon s with
  | Some t => t
  | None => s
  end.

End JS.

(* ===================================================================== *)
(** ** Third-party packages and the process environment *)
(* ===================================================================== *)

(** What the source reads of a parsed [URL] object. *)
Record URLObject := { protocol : string; hostname : string }.

(** What the source reads of a geoip-lite record. *)
Record GeoRecord := { city : option string; country : option string }.

(** What the source reads of [new UAParser(ua).getResult().browser]. *)
Record UABrowser := { name : option string; version : option string }.

Class Platform := {
  (** [new URL(s)]; [None] when the constructor throws. *)
  newURL : string -> option URLObject;
  (** [geoip.lookup(ip)]; [None] for [null]. *)
  geoip_lookup : string -> option GeoRecord;
  (** [new UAParser(ua).getResult().browser] *)
  uaBrowser : string -> UABrowser;
  (** [process.env.PORT] *)
  envPORT : option string
}.

(* ===================================================================== *)
(** ** services/validationService.js *)
(* ===================================================================== *)

Module ValidationService.

(** The object every validator returns; a field the source leaves out
    of the object literal is [None]. *)
Record Result := {
  isValid : bool;
  error : option string;
  normalizedUrl : option string;
  value : option JS.Value
}.

Definition invalid (msg : string) : Result :=
  {| isValid := false; error := Some msg;
     normalizedUrl := None; value := None |}.

Definition valid : Result :=
  {| isValid := true; error := None;
     normalizedUrl := None; value := None |}.

Definition reservedWords : list string :=
  ["api"; "admin"; "www"; "shorturls"; "health"; "stats"].

Definition validateShortcode (shortcode : option string) : Result :=
  match shortcode with
  | None | Some EmptyString => invalid "Shortcode cannot be empty"
  | Some shortcode =>
      let len := Z.of_nat (String.length shortcode) in
      if (len <? 4) || (len >? 10) then
        invalid "Shortcode must be between 4 and 10 characters long"
      else if negb (JS.testClassPlus JS.isAlnum shortcode) then
        invalid "Shortcode can only contain alphanumeric characters (a-z, A-Z, 0-9)"
      else if JS.includes reservedWords (JS.toLowerCase shortcode) then
        invalid "Shortcode uses a reserved word. Please choose a different shortcode."
      else valid
  end.

(** The class [[a-zA-Z0-9.-]] of the hostname test. *)
Definition isHostChar (c : ascii) : bool :=
  JS.isAlnum c || Ascii.eqb c "." || Ascii.eqb c "-".

Definition validateUrl `{Platform} (url : option string) : Result :=
  match url with
  | None | Some EmptyString => invalid "URL is required"
  | Some url =>
      let trimmedUrl := JS.trim url in
      if JS.hasChar " " trimmedUrl then invalid "URL cannot contain spaces"
      else
        match newURL trimmedUrl with
        | None => invalid "Invalid URL format"
        | Some urlObj =>
            if negb (JS.includes ["http:"; "https:"] (protocol urlObj)) then
              invalid "URL must use http:// or https:// protocol"
            else if negb (JS.truthy (Some (hostname urlObj))) then
              invalid "URL must have a valid hostname"
            else if negb (JS.testClassPlus isHostChar (hostname urlObj))
                    || negb (JS.hasChar "." (hostname urlObj)) then
              invalid "URL must have a valid domain name"
            else if JS.startsWithChar "-" (hostname urlObj)
                    || JS.endsWithChar "-" (hostname urlObj)
                    || JS.startsWithChar "." (hostname urlObj)
                    || JS.endsWithChar "." (hostname urlObj) then
              invalid "URL domain name format is invalid"
            else
              {| isValid := true; error := None;
                 normalizedUrl := Some trimmedUrl; value := None |}
        end
  end.

Definition validateValidity (validity : JS.Value) : Result :=
  match validity with
  | JS.Absent | JS.Null =>
      {| isValid := true; error := None;
         normalizedUrl := None; value := Some (JS.ofZ 30) |}
  | _ =>
      if negb (JS.Number_isInteger validity) then
        invalid "Validity must be an integer"
      else if JS.ltNum validity 1 || JS.gtNum validity 43200 then
        invalid "Validity must be between 1 and 43200 minutes (30 days)"
      else
        {| isValid := true; error := None;
           normalizedUrl := None; value := Some validity |}
  end.

End ValidationService.

(* ===================================================================== *)
(** ** nanoid *)
(* ===================================================================== *)

Module Nanoid.

(** [nanoid(size)] of the nanoid package (its Node entry point): the
    identifier is built from [size] bytes of a pool of random bytes,
    each byte selecting the symbol [urlAlphabet[byte & 63]]. *)

(** The 64 symbols of nanoid's default alphabet. *)
Definition urlAlphabet : string :=
  "useandom-26T198340PX75pxJACKVERYMINDBUSHWOLF_GQZbfghjklqvwyzrict".

(** [urlAlphabet[b & 63]] for one random byte [b]. *)
Definition symbol (b : Z) : string :=
  match String.get (Z.to_nat (Z.land b 63)) urlAlphabet with
  | Some c => String c EmptyString
  | None => EmptyString
  end.

(** The class [[A-Za-z0-9_-]] the alphabet is made of. *)
Definition isUrlSafe (c : ascii) : bool :=
  JS.isAlnum c || Ascii.eqb c "_" || Ascii.eqb c "-".

(** The identifier [nanoid(size)] builds from the [size] random bytes
    it takes from its pool, in order. *)
Definition ofBytes (bytes : list Z) : string :=
  foldr (fun b id => symbol b ++ id)%string EmptyString bytes.

End Nanoid.

(* ===================================================================== *)
(** ** services/urlService.js (the module that follows the validators in
       the listing of services/validationService.js) *)
(* ===================================================================== *)

Record ClickData := {
  timestamp : Z;
  referrer : string;
  location : string;
  userAgent : string;
  ip : string
}.

Record UrlEntry := {
  shortcode : string;
  originalUrl : string;
  createdAt : Z;
  expiresAt : Z;
  clicks : list ClickData
}.

Module UrlService.

(** The module state: the [Map] and the random bytes nanoid has yet to
    hand out. *)
Record State := {
  urlStorage : gmap string UrlEntry;
  entropy : list Z
}.

(** The [do ... while (urlStorage.has(shortcode))] loop around
    [nanoid(6)].  Each turn takes six bytes of entropy; [None] when the
    entropy runs out before a free code is drawn (the loop of the
    source would still be running). *)
Fixpoint generateShortcode (pool : list Z) (storage : gmap string UrlEntry)
  : option (string * list Z) :=
  match pool with
  | b0 :: b1 :: b2 :: b3 :: b4 :: b5 :: rest =>
      let shortcode := Nanoid.ofBytes [b0; b1; b2; b3; b4; b5] in
      match storage !! shortcode with
      | Some _ => generateShortcode rest storage
      | None => Some (shortcode, rest)
      end
  | _ => None
  end.

Definition shortcodeExists (shortcode : string) (storage : gmap string UrlEntry) : bool :=
  bool_decide (is_Some (storage !! shortcode)).

Definition storeUrl (urlEntry : UrlEntry) (storage : gmap string UrlEntry)
  : gmap string UrlEntry :=
  <[shortcode urlEntry := urlEntry]> storage.

Definition getUrl (shortcode : string) (storage : gmap string UrlEntry)
  : option UrlEntry :=
  storage !! shortcode.

(** [urlEntry.clicks.push(clickData)] *)
Definition pushClick (clickData : ClickData) (urlEntry : UrlEntry) : UrlEntry :=
  {| shortcode := shortcode urlEntry;
     originalUrl := originalUrl urlEntry;
     createdAt := createdAt urlEntry;
     expiresAt := expiresAt urlEntry;
     clicks := clicks urlEntry ++ [clickData] |}.

(** How a call of the service ends: it returns [undefined], or it
    throws. *)
Inductive Completion :=
| Returned
| Thrown (kind : string).

(** [urlEntry.clicks.push(clickData)], followed by
    [urlStorage.set(shortcode, urlEntry)] under the same key.  The body
    holds no [return] and no [throw]. *)
Definition recordClick (code : string) (clickData : ClickData)
    (storage : gmap string UrlEntry) : Completion * gmap string UrlEntry :=
  match storage !! code with
  | Some urlEntry => (Returned, <[code := pushClick clickData urlEntry]> storage)
  | None => (Returned, storage)
  end.

Definition getAllUrls (storage : gmap string UrlEntry) : list UrlEntry :=
  (map_to_list storage).*2.

Definition cleanupExpiredUrls (now : Z) (storage : gmap string UrlEntry)
  : nat * gmap string UrlEntry :=
  let expiredShortcodes :=
    (filter (fun kv => expiresAt kv.2 < now) (map_to_list storage)).*1 in
  (length expiredShortcodes,
   foldl (fun m code => delete code m) storage expiredShortcodes).

End UrlService.

(* ===================================================================== *)
(** ** controllers/urlController.js (the module that follows the router
       in the listing of routes/urlRoutes.js) *)
(* ===================================================================== *)

Module UrlController.

Import ValidationService UrlService.

(** [req.body] of [POST /shorturls]. *)
Record CreateBody := {
  body_url : option string;
  body_validity : JS.Value;
  body_shortcode : option string
}.

(** What [GET /:shortcode] reads of its request. *)
Record RedirectRequest := {
  params_shortcode : string;
  header_UserAgent : option string;     (* req.get('User-Agent') *)
  header_Referer : option string;       (* req.get('Referer') *)
  req_ip : option string;               (* req.ip *)
  remoteAddress : option string         (* req.connection.remoteAddress *)
}.

(** One element of [stats.clicks]. *)
Record ClickView := {
  view_timestamp : Z;
  view_referrer : string;
  view_location : string;
  view_userAgent : string
}.

Record Stats := {
  stats_shortcode : string;
  stats_originalUrl : string;
  stats_createdAt : Z;
  stats_expiresAt : Z;
  totalClicks : nat;
  stats_clicks : list ClickView
}.

Inductive Body :=
| ErrorBody (err : string) (message : option string)
| CreatedBody (shortLink : string) (expiry : Z)
| StatsBody (stats : Stats).

Inductive Response :=
| Json (status : Z) (body : Body)        (* res.status(n).json(body) *)
| Redirect (status : Z) (target : string).  (* res.redirect(n, target) *)

Definition validationError (message : option string) : Response :=
  Json 400 (ErrorBody "Validation Error" message).

Definition conflict : Response :=
  Json 409 (ErrorBody "Conflict"
    (Some "Shortcode already exists. Please choose a different one.")).

Definition notFound : Response :=
  Json 404 (ErrorBody "Not Found" (Some "Short URL not found")).

Definition gone : Response :=
  Json 410 (ErrorBody "Gone" (Some "Short URL has expired")).

(** [validityMinutes * 60 * 1000] for the value [validateValidity]
    returned: it passed [Number.isInteger] and lies in 1..43200, so the
    product is the exact integer. *)
Definition validityMs (validityMinutes : option JS.Value) : Z :=
  JS.toInteger (default JS.Absent validityMinutes) * 60 * 1000.

Definition shortLinkOf `{Platform} (finalShortcode : string) : string :=
  ("http://localhost:" ++ JS.orElse envPORT "3100" ++ "/" ++ finalShortcode)%string.

(** Lines 114-140 of the handler: draw a code when none was given,
    build the entry, store it, answer 201.  [now] is the reading of
    [Date.now()] and [now'] that of the later [new Date()]. *)
Definition storeAndReply `{Platform} (now now' : Z) (url : string)
    (validityMinutes : option JS.Value) (shortcode : option string)
    (st : State) : option (Response * State) :=
  let drawn :=
    if JS.truthy shortcode then Some (JS.orElse shortcode "", entropy st)
    else generateShortcode (entropy st) (urlStorage st) in
  match drawn with
  | None => None
  | Some (finalShortcode, pool) =>
      let expiresAt := now + validityMs validityMinutes in
      let urlEntry :=
        {| shortcode := finalShortcode;
           originalUrl := url;
           createdAt := now';
           expiresAt := expiresAt;
           clicks := [] |} in
      Some (Json 201 (CreatedBody (shortLinkOf finalShortcode) expiresAt),
            {| urlStorage := storeUrl urlEntry (urlStorage st);
               entropy := pool |})
  end.

(** The handler of [POST /shorturls].  [None]: the handler never
    answers, because code generation does not end. *)
Definition createShortUrl `{Platform} (now now' : Z) (body : CreateBody)
    (st : State) : option (Response * State) :=
  if negb (JS.truthy (body_url body)) then
    Some (validationError (Some "URL is required"), st)
  else
    let urlValidation := validateUrl (body_url body) in
    if negb (isValid urlValidation) then
      Some (validationError (error urlValidation), st)
    else
      let validityValidation := validateValidity (body_validity body) in
      if negb (isValid validityValidation) then
        Some (validationError (error validityValidation), st)
      else
        let validityMinutes := value validityValidation in
        let url := JS.orElse (body_url body) "" in
        if JS.truthy (body_shortcode body) then
          let shortcodeValidation := validateShortcode (body_shortcode body) in
          if negb (isValid shortcodeValidation) then
            Some (validationError (error shortcodeValidation), st)
          else if shortcodeExists (JS.orElse (body_shortcode body) "") (urlStorage st) then
            Some (conflict, st)
          else storeAndReply now now' url validityMinutes (body_shortcode body) st
        else storeAndReply now now' url validityMinutes (body_shortcode body) st.

(** The click the redirect handler builds from the request; [now'] is
    the reading of the clock at [new Date().toISOString()]. *)
Definition clickOf `{Platform} (now' : Z) (req : RedirectRequest) : ClickData :=
  let userAgent := JS.orElse (header_UserAgent req) "Unknown" in
  let ip := JS.orElse (req_ip req) (JS.orElse (remoteAddress req) "Unknown") in
  let referrer := JS.orElse (header_Referer req) "Direct" in
  let location :=
    match geoip_lookup ip with
    | Some geo =>
        (JS.orElse (city geo) "Unknown" ++ ", " ++ JS.orElse (country geo) "Unknown")%string
    | None => "Unknown"
    end in
  let result := uaBrowser userAgent in
  let browser :=
    JS.trim (JS.orElse (name result) "Unknown" ++ " " ++ JS.orElse (version result) "")%string in
  {| timestamp := now';
     referrer := referrer;
     location := location;
     userAgent := browser;
     ip := JS.stripThroughLastColon ip |}.

(** The handler of [GET /:shortcode].  [now] is the reading of the clock
    at the expiry test. *)
Definition redirectToUrl `{Platform} (now now' : Z) (req : RedirectRequest)
    (storage : gmap string UrlEntry) : Response * gmap string UrlEntry :=
  match getUrl (params_shortcode req) storage with
  | None => (notFound, storage)
  | Some urlEntry =>
      if now >? expiresAt urlEntry then (gone, storage)
      else
        let clickData := clickOf now' req in
        let storage' := (recordClick (params_shortcode req) clickData storage).2 in
        (Redirect 302 (originalUrl urlEntry), storage')
  end.

Definition viewOf (click : ClickData) : ClickView :=
  {| view_timestamp := timestamp click;
     view_referrer := referrer click;
     view_location := location click;
     view_userAgent := userAgent click |}.

(** The handler of [GET /shorturls/:shortcode]. *)
Definition getUrlStats (code : string) (storage : gmap string UrlEntry) : Response :=
  match getUrl code storage with
  | None => notFound
  | Some urlEntry =>
      Json 200 (StatsBody
        {| stats_shortcode := shortcode urlEntry;
           stats_originalUrl := originalUrl urlEntry;
           stats_createdAt := createdAt urlEntry;
           stats_expiresAt := expiresAt urlEntry;
           totalClicks := length (clicks urlEntry);
           stats_clicks := map viewOf (clicks urlEntry) |})
  end.

End UrlController.

(* ===================================================================== *)
(** ** The registry as a transition system *)
(* ===================================================================== *)

Module Registry.

Import UrlService UrlController.

(** The calls a client of the backend can make: the three HTTP
    handlers and the exported functions of the URL service. *)
Inductive Op :=
| CreateShortUrl (now now' : Z) (body : CreateBody)
| RedirectToUrl (now now' : Z) (req : RedirectRequest)
| GetUrlStats (code : string)
| GetUrl (code : string)
| ShortcodeExists (code : string)
| RecordClick (code : string) (clickData : ClickData)
| StoreUrl (urlEntry : UrlEntry)
| GetAllUrls
| CleanupExpiredUrls (now : Z).

Definition isSweep (op : Op) : bool :=
  match op with
  | CleanupExpiredUrls _ => true
  | _ => false
  end.

Definition withStorage (st : State) (storage : gmap string UrlEntry) : State :=
  {| urlStorage := storage; entropy := entropy st |}.

(** The state after one call; [None] when the call never returns. *)
Definition step `{Platform} (op : Op) (st : State) : option State :=
  match op with
  | CreateShortUrl now now' body => snd <$> createShortUrl now now' body st
  | RedirectToUrl now now' req =>
      Some (withStorage st (redirectToUrl now now' req (urlStorage st)).2)
  | RecordClick code clickData =>
      Some (withStorage st (recordClick code clickData (urlStorage st)).2)
  | StoreUrl urlEntry => Some (withStorage st (storeUrl urlEntry (urlStorage st)))
  | CleanupExpiredUrls now =>
      Some (withStorage st (cleanupExpiredUrls now (urlStorage st)).2)
  | GetUrlStats _ | GetUrl _ | ShortcodeExists _ | GetAllUrls => Some st
  end.

Fixpoint run `{Platform} (ops : list Op) (st : State) : option State :=
  match ops with
  | [] => Some st
  | op :: ops' =>
      match step op st with
      | Some st' => run ops' st'
      | None => None
      end
  end.

End Registry.

(* ===================================================================== *)
(** ** Properties stated in the words of the design *)
(* ===================================================================== *)

Module Design.

(** A code made of characters of [[a-zA-Z0-9]] only. *)
Definition alphanumeric (s : string) : Prop :=
  Forall (fun c => JS.isAlnum c = true) (list_ascii_of_string s).

(** Equality of two strings up to the case of their letters. *)
Definition sameIgnoringCase (a b : string) : Prop :=
  JS.toLowerCase a = JS.toLowerCase b.

Definition reserved (s : string) : Prop :=
  Exists (sameIgnoringCase s) ValidationService.reservedWords.

(** The value denotes the integer [z]. *)
Definition denotes (v : JS.Value) (z : Z) : Prop :=
  match v with
  | JS.Num (JS.Finite q) => Qeq q (inject_Z z)
  | _ => False
  end.

(** A record is expired at [now] when [now] is past its [expiresAt]. *)
Definition expiredAt (now : Z) (urlEntry : UrlEntry) : Prop :=
  expiresAt urlEntry < now.

#[global] Instance expiredAt_dec now urlEntry : Decision (expiredAt now urlEntry) :=
  decide (expiresAt urlEntry < now).

(** The registry after recording the clicks [cs] on [code], one call
    of [recordClick] after the other. *)
Definition recordAll (code : string) (cs : list ClickData)
    (storage : gmap string UrlEntry) : gmap string UrlEntry :=
  foldl (fun m click => (UrlService.recordClick code click m).2) storage cs.

(** An outcome that reports an error: anything but the plain return of
    a call that went through. *)
Definition reportsError (c : UrlService.Completion) : Prop :=
  c <> UrlService.Returned.

End Design.

(* ===================================================================== *)
(** ** A concrete platform for the examples *)
(* ===================================================================== *)

Module Sample.

(** [before p s]: the characters of [s] before the first one in the
    class [p], and what follows from that character on. *)
Fixpoint before (p : ascii -> bool) (s : string) : string * string :=
  match s with
  | EmptyString => (EmptyString, EmptyString)
  | String c s' =>
      if p c then (EmptyString, s)
      else let '(a, b) := before p s' in (String c a, b)
  end.

Definition isDelimiter (c : ascii) : bool :=
  JS.hasChar c "/?#:".

(** A reader of absolute URLs of the form [scheme://host...], enough
    for the examples below. *)
Definition readURL (s : string) : option URLObject :=
  match before (Ascii.eqb ":") s with
  | (String c scheme, String _ (String "/" (String "/" rest))) =>
      Some {| protocol := (JS.toLowerCase (String c scheme) ++ ":")%string;
              hostname := JS.toLowerCase (before isDelimiter rest).1 |}
  | _ => None
  end.

#[export] Instance platform : Platform := {|
  newURL := readURL;
  geoip_lookup := fun ip =>
    if String.eqb ip "8.8.8.8"
    then Some {| city := Some "Mountain View"; country := Some "US" |}
    else None;
  uaBrowser := fun ua =>
    if String.eqb ua "curl/8.0" then {| name := None; version := None |}
    else {| name := Some "Chrome"; version := Some "126.0.0.0" |};
  envPORT := None
|}.

Definition entry : UrlEntry :=
  {| shortcode := "abcd12";
     originalUrl := "https://example.com/x";
     createdAt := 1000;
     expiresAt := 1000 + 30 * 60 * 1000;
     clicks := [] |}.

Definition click : ClickData :=
  {| timestamp := 5000; referrer := "Direct"; location := "Unknown";
     userAgent := "Chrome 126.0.0.0"; ip := "127.0.0.1" |}.

Definition request (code : string) : UrlController.RedirectRequest :=
  {| UrlController.params_shortcode := code;
     UrlController.header_UserAgent := Some "Mozilla/5.0";
     UrlController.header_Referer := None;
     UrlController.req_ip := Some "::ffff:127.0.0.1";
     UrlController.remoteAddress := None |}.

Definition body (url : string) (validity : JS.Value) (code : option string)
  : UrlController.CreateBody :=
  {| UrlController.body_url := Some url;
     UrlController.body_validity := validity;
     UrlController.body_shortcode := code |}.

Definition state (storage : gmap string UrlEntry) (pool : list Z) : UrlService.State :=
  {| UrlService.urlStorage := storage; UrlService.entropy := pool |}.

(** A request with a custom code, and one whose url carries white
    space at both ends and that leaves the code to the generator. *)
Definition custom : UrlController.CreateBody :=
  body "https://example.com/x" (JS.ofZ 30) (Some "abcd12").

Definition padded : UrlController.CreateBody :=
  body " https://example.com/x " JS.Absent None.

Definition paddedEntry : UrlEntry :=
  {| shortcode := "m-_tut";
     originalUrl := " https://example.com/x ";
     createdAt := 1000;
     expiresAt := 1000 + 30 * 60 * 1000;
     clicks := [] |}.

Definition draw : list Z := [7; 8; 44; 255; 0; 63].

(** A few calls in a row, and three visits to one code: one in time, one
    long after the expiry, one in time again. *)
Definition calls : list Registry.Op :=
  [Registry.RedirectToUrl 2000 2000 (request "abcd12");
   Registry.CreateShortUrl 3000 3000 padded;
   Registry.GetUrlStats "abcd12";
   Registry.RecordClick "abcd12" click].

Definition batch : list (Z * Z * UrlController.CreateBody) :=
  [(1000, 1000, custom); (2000, 2000, custom); (3000, 3000, padded)].

Definition visits : list (Z * Z * UrlController.RedirectRequest) :=
  [(2000, 2000, request "abcd12");
   (99999999, 99999999, request "abcd12");
   (3000, 3000, request "abcd12")].

End Sample.

(* ===================================================================== *)
(** ** Notions used to state further properties of the backend *)
(* ===================================================================== *)

Module Notions.

Import UrlService UrlController.

Definition firstChar (s : string) : option ascii :=
  head (list_ascii_of_string s).

Definition lastChar (s : string) : option ascii :=
  last (list_ascii_of_string s).

Definition occurs (c : ascii) (s : string) : Prop :=
  c ∈ list_ascii_of_string s.

(** A string with no white space at either end. *)
Definition tidy (s : string) : Prop :=
  (forall c, firstChar s = Some c -> JS.isWhite c = false)
  /\ (forall c, lastChar s = Some c -> JS.isWhite c = false).

(** The host names the URL validator lets through: made of letters,
    digits, dots and hyphens, holding a dot, and neither starting nor
    ending with a dot or a hyphen. *)
Definition hostAccepted (h : string) : Prop :=
  h <> EmptyString
  /\ Forall (fun c => ValidationService.isHostChar c = true) (list_ascii_of_string h)
  /\ occurs "." h
  /\ firstChar h <> Some "-"%char /\ firstChar h <> Some "."%char
  /\ lastChar h <> Some "-"%char /\ lastChar h <> Some "."%char.

(** The status line of a response. *)
Definition statusOf (r : Response) : Z :=
  match r with
  | Json status _ => status
  | Redirect status _ => status
  end.

(** Every record sits under its own shortcode. *)
Definition keyed (storage : gmap string UrlEntry) : Prop :=
  forall code urlEntry, storage !! code = Some urlEntry -> shortcode urlEntry = code.

(** [later] is [earlier] with, at most, clicks added at the end. *)
Definition extends (earlier later : UrlEntry) : Prop :=
  shortcode later = shortcode earlier
  /\ originalUrl later = originalUrl earlier
  /\ createdAt later = createdAt earlier
  /\ expiresAt later = expiresAt earlier
  /\ clicks earlier `prefix_of` clicks later.

(** The calls that reach the registry through the HTTP handlers or
    through click recording: everything but a direct [storeUrl] and the
    sweep. *)
Definition viaHandlers (op : Registry.Op) : bool :=
  match op with
  | Registry.StoreUrl _ | Registry.CleanupExpiredUrls _ => false
  | _ => true
  end.

(** The redirect handler run on a sequence of requests, each with its
    two clock readings; the responses come out in the order of the
    requests. *)
Fixpoint redirectAll `{Platform} (reqs : list (Z * Z * RedirectRequest))
    (storage : gmap string UrlEntry) : list Response * gmap string UrlEntry :=
  match reqs with
  | [] => ([], storage)
  | (now, now', req) :: reqs' =>
      let '(resp, storage') := redirectToUrl now now' req storage in
      let '(resps, storage'') := redirectAll reqs' storage' in
      (resp :: resps, storage'')
  end.

(** The number of 302 answers among responses. *)
Definition redirects (resps : list Response) : nat :=
  length (filter (fun r => statusOf r = 302) resps).

(** The create handler run on a sequence of requests, each with its two
    clock readings; [None] when one of the calls never answers. *)
Fixpoint createAll `{Platform} (reqs : list (Z * Z * CreateBody)) (st : State)
  : option (list Response * State) :=
  match reqs with
  | [] => Some ([], st)
  | (now, now', body) :: reqs' =>
      match createShortUrl now now' body st with
      | None => None
      | Some (resp, st') =>
          match createAll reqs' st' with
          | None => None
          | Some (resps, st'') => Some (resp :: resps, st'')
          end
      end
  end.

(** The number of 201 answers among responses. *)
Definition creations (resps : list Response) : nat :=
  length (filter (fun r => statusOf r = 201) resps).

End Notions.

(* ===================================================================== *)
(** ** FrontendTestSubmission/src/utils/helpers.jsx *)
(* ===================================================================== *)

(** The client-side helpers.  Form fields are strings (the state of a
    text field); the validators return objects of the same shape as the
    server-side ones, so [ValidationService.Result] is reused.  A date
    string handed to [new Date(...)] is an [option Z]: [None] for an
    Invalid Date. *)
Module Helpers.

Import ValidationService.

(** A pattern letter under the [i] flag: the input character has the
    same upper case as the letter, that is, the same lower case. *)
Definition sameLetter (c letter : ascii) : bool :=
  Ascii.eqb (JS.lowerChar c) letter.

(** The rest of [/^https?:\/\/.+/i] after the scheme: [://] followed by
    at least one character that is not a line terminator. *)
Definition afterScheme (s : string) : bool :=
  match s with
  | String ":" (String "/" (String "/" (String c _))) => negb (JS.isLineTerminator c)
  | _ => false
  end.

(** [/^https?:\/\/.+/i.test(s)] *)
Definition urlPattern (s : string) : bool :=
  match s with
  | String h (String t1 (String t2 (String p rest))) =>
      sameLetter h "h" && sameLetter t1 "t" && sameLetter t2 "t" && sameLetter p "p"
      && (match rest with
          | String s' rest' => sameLetter s' "s" && afterScheme rest'
          | EmptyString => false
          end
          || afterScheme rest)
  | _ => false
  end.

Definition validateUrl `{Platform} (url : string) : Result :=
  if negb (JS.truthy (Some url)) || String.eqb (JS.trim url) EmptyString then
    invalid "URL is required"
  else
    let trimmedUrl := JS.trim url in
    if JS.hasChar " " trimmedUrl then invalid "URL cannot contain spaces"
    else if negb (urlPattern trimmedUrl) then
      invalid "URL must start with http:// or https://"
    else
      match newURL trimmedUrl with
      | None => invalid "Invalid URL format"
      | Some urlObj =>
          if negb (JS.testClassPlus isHostChar (hostname urlObj))
             || negb (JS.hasChar "." (hostname urlObj)) then
            invalid "URL must have a valid domain name"
          else if JS.startsWithChar "-" (hostname urlObj)
                  || JS.endsWithChar "-" (hostname urlObj)
                  || JS.startsWithChar "." (hostname urlObj)
                  || JS.endsWithChar "." (hostname urlObj) then
            invalid "URL domain name format is invalid"
          else
            {| isValid := true; error := None;
               normalizedUrl := Some trimmedUrl; value := None |}
      end.

Definition validateShortcode (shortcode : string) : Result :=
  if negb (JS.truthy (Some shortcode)) || String.eqb (JS.trim shortcode) EmptyString then
    valid
  else
    let trimmedShortcode := JS.trim shortcode in
    let len := Z.of_nat (String.length trimmedShortcode) in
    if (len <? 4) || (len >? 10) then
      invalid "Shortcode must be between 4 and 10 characters"
    else if negb (JS.testClassPlus JS.isAlnum trimmedShortcode) then
      invalid "Shortcode can only contain letters and numbers"
    else if JS.includes reservedWords (JS.toLowerCase trimmedShortcode) then
      invalid "This shortcode is reserved. Please choose another."
    else valid.

Definition digitValue (c : ascii) : option Z :=
  if JS.inRange 48 57 c then Some (JS.code c - 48) else None.

(** The value of the longest run of decimal digits at the start of [s],
    continuing [acc]; [None] when there is no digit at all. *)
Fixpoint digitsPrefix (acc : option Z) (s : string) : option Z :=
  match s with
  | String c s' =>
      match digitValue c with
      | Some d => digitsPrefix (Some (10 * default 0 acc + d)) s'
      | None => acc
      end
  | EmptyString => acc
  end.

(** [parseInt(s, 10)]: leading white space, an optional sign, then the
    longest run of digits; [None] is [NaN].  The result is the integer
    the digits denote.  (Past 2^53 JavaScript rounds it to a double; the
    rounding keeps it above 43200, the only thing the caller tests of a
    value that large.) *)
Definition parseInt10 (s : string) : option Z :=
  match JS.trimStart s with
  | String "-" rest => Z.opp <$> digitsPrefix None rest
  | String "+" rest => digitsPrefix None rest
  | other => digitsPrefix None other
  end.

Definition validateValidity (validity : string) : Result :=
  if negb (JS.truthy (Some validity)) || String.eqb (JS.trim validity) EmptyString then
    {| isValid := true; error := None; normalizedUrl := None;
       value := Some (JS.ofZ 30) |}
  else
    match parseInt10 (JS.trim validity) with
    | None => invalid "Validity must be a number"
    | Some numericValue =>
        if (numericValue <? 1) || (numericValue >? 43200) then
          invalid "Validity must be between 1 and 43200 minutes (30 days)"
        else
          {| isValid := true; error := None; normalizedUrl := None;
             value := Some (JS.ofZ numericValue) |}
    end.

(** One row of the form. *)
Record FormEntry := {
  entry_url : string;
  entry_validity : string;
  entry_shortcode : string
}.

(** The [errors] object: a key that was not set is [None]. *)
Record Errors := {
  errors_url : option string;
  errors_shortcode : option string;
  errors_validity : option string
}.

(** What [validateUrlEntry] returns.  [validatedData] is what the page
    later posts to the backend, so it is a [CreateBody]: a property set
    to [undefined] is left out of the JSON body. *)
Record EntryValidation := {
  entry_isValid : bool;
  entry_errors : Errors;
  validatedData : UrlController.CreateBody
}.

Definition errorIf (r : Result) : option string :=
  if isValid r then None else error r.

(** [Object.keys(errors).length === 0] *)
Definition noErrors (e : Errors) : bool :=
  match errors_url e, errors_shortcode e, errors_validity e with
  | None, None, None => true
  | _, _, _ => false
  end.

Definition validateUrlEntry `{Platform} (entry : FormEntry) : EntryValidation :=
  let urlValidation := validateUrl (entry_url entry) in
  let shortcodeValidation := validateShortcode (entry_shortcode entry) in
  let validityValidation := validateValidity (entry_validity entry) in
  let errors :=
    {| errors_url := errorIf urlValidation;
       errors_shortcode := errorIf shortcodeValidation;
       errors_validity := errorIf validityValidation |} in
  {| entry_isValid := noErrors errors;
     entry_errors := errors;
     validatedData :=
       {| UrlController.body_url := Some (JS.trim (entry_url entry));
          UrlController.body_validity := default JS.Absent (value validityValidation);
          UrlController.body_shortcode :=
            if JS.truthy (Some (JS.trim (entry_shortcode entry)))
            then Some (JS.trim (entry_shortcode entry)) else None |} |}.

(** One element of the array [validateMultipleEntries] returns. *)
Record IndexedValidation := {
  index : nat;
  validation : EntryValidation
}.

Definition markDuplicate (v : EntryValidation) : EntryValidation :=
  {| entry_isValid := false;
     entry_errors :=
       {| errors_url := errors_url (entry_errors v);
          errors_shortcode := Some "Duplicate shortcode in this batch";
          errors_validity := errors_validity (entry_errors v) |};
     validatedData := validatedData v |}.

(** The loop of [validateMultipleEntries] from index [i] on, [shortcodes]
    being the set of lower-cased shortcodes met so far. *)
Fixpoint validateFrom `{Platform} (i : nat) (shortcodes : gset string)
    (entries : list FormEntry) : list IndexedValidation :=
  match entries with
  | [] => []
  | entry :: rest =>
      let v := validateUrlEntry entry in
      match UrlController.body_shortcode (validatedData v) with
      | Some shortcode =>
          if decide (JS.toLowerCase shortcode ∈ shortcodes) then
            {| index := i; validation := markDuplicate v |}
              :: validateFrom (S i) shortcodes rest
          else
            {| index := i; validation := v |}
              :: validateFrom (S i) ({[JS.toLowerCase shortcode]} ∪ shortcodes) rest
      | None =>
          {| index := i; validation := v |} :: validateFrom (S i) shortcodes rest
      end
  end.

Definition validateMultipleEntries `{Platform} (entries : list FormEntry)
  : list IndexedValidation :=
  validateFrom 0 ∅ entries.

(** [truncateUrl(url, maxLength)] for an integer [maxLength];
    [substring(0, n)] takes nothing for a negative [n]. *)
Definition truncateUrl (url : string) (maxLength : Z) : string :=
  if negb (JS.truthy (Some url)) || (Z.of_nat (String.length url) <=? maxLength) then url
  else (String.substring 0 (Z.to_nat maxLength) url ++ "...")%string.

(** [isFuture(dateString)]: [date > now], false for an Invalid Date. *)
Definition isFuture (date : option Z) (now : Z) : bool :=
  match date with
  | Some d => d >? now
  | None => false
  end.

Record ExpiryStatus := { status : string; color : string }.

(** [getExpiryStatus(expiryDate)]; [now] is the clock reading inside
    [isFuture], [now'] the one taken after it. *)
Definition getExpiryStatus (expiryDate : option Z) (now now' : Z) : ExpiryStatus :=
  if negb (isFuture expiryDate now) then {| status := "Expired"; color := "error" |}
  else
    let diffMs := default 0 expiryDate - now' in
    let diffMinutes := diffMs / (1000 * 60) in
    if diffMinutes <? 60 then
      {| status := ("Expires in " ++ pretty diffMinutes ++ " minutes")%string;
         color := "warning" |}
    else
      let diffHours := diffMinutes / 60 in
      if diffHours <? 24 then
        {| status := ("Expires in " ++ pretty diffHours ++ " hours")%string;
           color := "info" |}
      else
        let diffDays := diffHours / 24 in
        {| status := ("Expires in " ++ pretty diffDays ++ " days")%string;
           color := "success" |}.

(** [getTimeAgo(dateString)]; [now] is the clock reading.  For an
    Invalid Date every difference is [NaN], every comparison fails, and
    the last template is the one returned. *)
Definition getTimeAgo (date : option Z) (now : Z) : string :=
  match date with
  | None => "NaN days ago"
  | Some d =>
      let diffMs := now - d in
      let diffSeconds := diffMs / 1000 in
      let diffMinutes := diffSeconds / 60 in
      let diffHours := diffMinutes / 60 in
      let diffDays := diffHours / 24 in
      if diffSeconds <? 60 then (pretty diffSeconds ++ " seconds ago")%string
      else if diffMinutes <? 60 then (pretty diffMinutes ++ " minutes ago")%string
      else if diffHours <? 24 then (pretty diffHours ++ " hours ago")%string
      else (pretty diffDays ++ " days ago")%string
  end.

End Helpers.

Module SampleForm.

(** A form row as typed, with white space around each field. *)
Definition row : Helpers.FormEntry :=
  {| Helpers.entry_url := " HTTPS://Example.com/a ";
     Helpers.entry_validity := " 45 ";
     Helpers.entry_shortcode := " Abc123 " |}.

End SampleForm.

(* ===================================================================== *)
(** ** Facts about the string primitives *)
(* ===================================================================== *)

Section StringFacts.

Lemma allChars_Forall p s :
  JS.allChars p s = true <-> Forall (fun c => p c = true) (list_ascii_of_string s).
Proof.
  induction s as [|c s IH]; simpl.
  - split; [constructor | reflexivity].
  - rewrite andb_true_iff, IH. split.
    + intros [Hc Hs]. by constructor.
    + intros Hall. inversion Hall; subst. by split.
Qed.

Lemma testClassPlus_true p s :
  JS.testClassPlus p s = true <->
  s <> EmptyString /\ Forall (fun c => p c = true) (list_ascii_of_string s).
Proof.
  rewrite <- allChars_Forall. destruct s as [|c s]; simpl.
  - split; [discriminate | intros [Hne _]; by destruct Hne].
  - split; [intros Hall; by split | by intros [_ Hall]].
Qed.

Lemma includes_true l s : JS.includes l s = true <-> s ∈ l.
Proof.
  unfold JS.includes. rewrite existsb_exists. split.
  - intros (w & Hin & Heq). apply String.eqb_eq in Heq. subst w.
    by apply list_elem_of_In.
  - intros Hin. exists s. split; [by apply list_elem_of_In | apply String.eqb_refl].
Qed.

Lemma length_append (a b : string) :
  String.length (a ++ b) = (String.length a + String.length b)%nat.
Proof. induction a as [|c a IH]; simpl; [reflexivity | by rewrite IH]. Qed.

Lemma list_ascii_append (a b : string) :
  list_ascii_of_string (a ++ b) = (list_ascii_of_string a ++ list_ascii_of_string b)%list.
Proof. induction a as [|c a IH]; simpl; [reflexivity | by rewrite IH]. Qed.

End StringFacts.

(* ===================================================================== *)
(** ** The validators *)
(* ===================================================================== *)

Section Validators.

Import ValidationService.

Lemma reserved_iff s :
  JS.includes reservedWords (JS.toLowerCase s) = true <-> Design.reserved s.
Proof.
  rewrite includes_true. unfold Design.reserved, Design.sameIgnoringCase.
  rewrite Exists_exists. split.
  - intros Hin. exists (JS.toLowerCase s). split; [done |].
    unfold reservedWords in Hin.
    repeat (apply elem_of_cons in Hin as [-> | Hin]; [reflexivity |]).
    by apply elem_of_nil in Hin.
  - intros (w & Hin & Heq). rewrite Heq. unfold reservedWords in *.
    repeat (apply elem_of_cons in Hin as [-> | Hin]; [set_solver |]).
    by apply elem_of_nil in Hin.
Qed.

Lemma validateShortcode_nonempty c s :
  isValid (validateShortcode (Some (String c s))) = true <->
  (4 <= String.length (String c s) <= 10)%nat
  /\ Design.alphanumeric (String c s)
  /\ ~ Design.reserved (String c s).
Proof.
  unfold validateShortcode. cbv beta iota.
  generalize (String c s) as code. intros code.
  destruct (Z.ltb_spec (Z.of_nat (String.length code)) 4) as [Hlo | Hlo]; cbn [orb].
  { split; [discriminate | intros [Hlen _]; lia]. }
  destruct (Z.gtb_spec (Z.of_nat (String.length code)) 10) as [Hhi | Hhi]; cbn [orb].
  { split; [discriminate | intros [Hlen _]; lia]. }
  destruct (JS.testClassPlus JS.isAlnum code) eqn:Hclass; cbn [negb].
  - apply testClassPlus_true in Hclass as [_ Hall].
    destruct (JS.includes reservedWords (JS.toLowerCase code)) eqn:Hres.
    + apply reserved_iff in Hres.
      split; [discriminate | intros (_ & _ & Hn); contradiction].
    + split; [| reflexivity]. intros _. split; [lia |]. split; [exact Hall |].
      intros Hr. apply reserved_iff in Hr. congruence.
  - split; [discriminate |]. intros (Hlen & Hall & _).
    assert (JS.testClassPlus JS.isAlnum code = true) as Habs; [| congruence].
    apply testClassPlus_true. split; [| exact Hall].
    intros ->. simpl in Hlen. lia.
Qed.

Lemma isIntegral_denotes q :
  JS.isIntegral q = true <-> exists z, Qeq q (inject_Z z).
Proof.
  unfold JS.isIntegral, Qeq. simpl. rewrite Z.eqb_eq, Z.rem_divide by lia.
  split.
  - intros [z Hz]. exists z. lia.
  - intros [z Hz]. exists z. lia.
Qed.

Lemma validateValidity_number q :
  isValid (validateValidity (JS.Num (JS.Finite q))) = true <->
  exists z, Design.denotes (JS.Num (JS.Finite q)) z /\ 1 <= z <= 43200.
Proof.
  unfold validateValidity, Design.denotes. simpl.
  destruct (JS.isIntegral q) eqn:Hint; simpl.
  - apply isIntegral_denotes in Hint as [z Hz].
    pose proof Hz as Hq. unfold Qeq in Hq. simpl in Hq.
    destruct (Z.ltb_spec (Qnum q) (1 * Z.pos (Qden q))) as [Hlo | Hlo]; simpl.
    { split; [discriminate |]. intros (z' & Hz' & Hr). unfold Qeq in Hz'. simpl in Hz'. nia. }
    destruct (Z.ltb_spec (43200 * Z.pos (Qden q)) (Qnum q)) as [Hhi | Hhi]; simpl.
    { split; [discriminate |]. intros (z' & Hz' & Hr). unfold Qeq in Hz'. simpl in Hz'. nia. }
    split; [| reflexivity]. intros _. exists z. split; [exact Hz | nia].
  - split; [discriminate |]. intros (z & Hz & _).
    assert (JS.isIntegral q = true) as Habs; [| congruence].
    apply isIntegral_denotes. by exists z.
Qed.

End Validators.

(* ===================================================================== *)
(** ** The URL service *)
(* ===================================================================== *)

Section Service.

Import UrlService.

Implicit Types (storage : gmap string UrlEntry) (code : string).

Lemma shortcodeExists_true code storage :
  shortcodeExists code storage = true <-> is_Some (storage !! code).
Proof. unfold shortcodeExists. apply bool_decide_eq_true. Qed.

Lemma shortcodeExists_false code storage :
  shortcodeExists code storage = false <-> storage !! code = None.
Proof.
  unfold shortcodeExists. rewrite bool_decide_eq_false.
  by rewrite eq_None_not_Some.
Qed.

Lemma recordClick_present code clickData storage urlEntry :
  storage !! code = Some urlEntry ->
  recordClick code clickData storage
  = (Returned, <[code := pushClick clickData urlEntry]> storage).
Proof. intros Hget. unfold recordClick. by rewrite Hget. Qed.

Lemma recordClick_absent code clickData storage :
  storage !! code = None ->
  recordClick code clickData storage = (Returned, storage).
Proof. intros Hget. unfold recordClick. by rewrite Hget. Qed.

(** Recording a click neither adds nor removes a code. *)
Lemma recordClick_keeps_codes code clickData storage other :
  is_Some ((recordClick code clickData storage).2 !! other)
  <-> is_Some (storage !! other).
Proof.
  unfold recordClick. destruct (storage !! code) as [urlEntry|] eqn:Hget; simpl.
  - destruct (decide (code = other)) as [<- | Hne].
    + rewrite lookup_insert_eq, Hget. split; eauto.
    + by rewrite lookup_insert_ne.
  - reflexivity.
Qed.

Lemma recordAll_present code cs : forall storage urlEntry,
  storage !! code = Some urlEntry ->
  Design.recordAll code cs storage !! code
  = Some {| shortcode := shortcode urlEntry;
            originalUrl := originalUrl urlEntry;
            createdAt := createdAt urlEntry;
            expiresAt := expiresAt urlEntry;
            clicks := clicks urlEntry ++ cs |}.
Proof.
  induction cs as [|click cs IH]; intros storage urlEntry Hget; simpl.
  - rewrite app_nil_r. by destruct urlEntry.
  - change (Design.recordAll code (click :: cs) storage)
      with (Design.recordAll code cs (recordClick code click storage).2).
    rewrite (recordClick_present _ _ _ _ Hget). simpl.
    rewrite (IH _ (pushClick click urlEntry)) by apply lookup_insert_eq.
    simpl. by rewrite <- app_assoc.
Qed.

(** *** Code generation *)

Lemma urlAlphabet_symbols :
  forallb (fun i =>
    match String.get i Nanoid.urlAlphabet with
    | Some c => Nanoid.isUrlSafe c
    | None => false
    end) (seq 0 64) = true.
Proof. vm_compute. reflexivity. Qed.

Lemma symbol_shape b :
  exists c, Nanoid.symbol b = String c EmptyString /\ Nanoid.isUrlSafe c = true.
Proof.
  unfold Nanoid.symbol.
  assert (Z.to_nat (Z.land b 63) < 64)%nat as Hlt.
  { change 63 with (Z.ones 6). rewrite Z.land_ones by lia.
    pose proof (Z.mod_pos_bound b (2 ^ 6)). lia. }
  pose proof urlAlphabet_symbols as Hall.
  rewrite forallb_forall in Hall.
  specialize (Hall (Z.to_nat (Z.land b 63))).
  destruct (String.get (Z.to_nat (Z.land b 63)) Nanoid.urlAlphabet) as [c|].
  - exists c. split; [reflexivity |]. apply Hall. apply in_seq. lia.
  - discriminate Hall. apply in_seq. lia.
Qed.

Lemma ofBytes_shape bytes :
  String.length (Nanoid.ofBytes bytes) = length bytes
  /\ JS.allChars Nanoid.isUrlSafe (Nanoid.ofBytes bytes) = true.
Proof.
  induction bytes as [|b bytes [IHlen IHall]]; [by split |].
  change (Nanoid.ofBytes (b :: bytes))
    with (Nanoid.symbol b ++ Nanoid.ofBytes bytes)%string.
  destruct (symbol_shape b) as (c & -> & Hc).
  change (String c EmptyString ++ Nanoid.ofBytes bytes)%string
    with (String c (Nanoid.ofBytes bytes)).
  cbn [String.length JS.allChars length].
  rewrite IHlen, Hc, IHall. by split.
Qed.

Lemma generateShortcode_step b0 b1 b2 b3 b4 b5 (rest : list Z) storage :
  generateShortcode (b0 :: b1 :: b2 :: b3 :: b4 :: b5 :: rest) storage
  = match storage !! Nanoid.ofBytes [b0; b1; b2; b3; b4; b5] with
    | Some _ => generateShortcode rest storage
    | None => Some (Nanoid.ofBytes [b0; b1; b2; b3; b4; b5], rest)
    end.
Proof. reflexivity. Qed.

Lemma generateShortcode_fresh : forall (n : nat) (pool : list Z) storage code rest,
  (length pool <= n)%nat ->
  generateShortcode pool storage = Some (code, rest) ->
  String.length code = 6%nat
  /\ JS.allChars Nanoid.isUrlSafe code = true
  /\ storage !! code = None.
Proof.
  induction n as [|n IH]; intros pool storage code rest Hlen Hgen.
  - destruct pool; [discriminate Hgen | simpl in Hlen; lia].
  - destruct pool as [|b0 [|b1 [|b2 [|b3 [|b4 [|b5 tl]]]]]]; try discriminate Hgen.
    rewrite generateShortcode_step in Hgen.
    destruct (storage !! Nanoid.ofBytes [b0; b1; b2; b3; b4; b5]) eqn:Hget.
    + apply (IH tl storage code rest); [simpl in Hlen; lia | exact Hgen].
    + injection Hgen as <- <-.
      destruct (ofBytes_shape [b0; b1; b2; b3; b4; b5]) as [Hl Ha].
      by repeat split.
Qed.

(** The loop ends as soon as a draw is free: after [k] draws that hit
    a code in use, a free draw is returned. *)
Lemma generateShortcode_returns : forall (taken : list (list Z)) draw rest storage,
  Forall (fun d => length d = 6%nat /\ is_Some (storage !! Nanoid.ofBytes d)) taken ->
  length draw = 6%nat ->
  storage !! Nanoid.ofBytes draw = None ->
  generateShortcode (concat taken ++ draw ++ rest) storage
  = Some (Nanoid.ofBytes draw, rest).
Proof.
  induction taken as [|d taken IH]; intros draw rest storage Htaken Hlen Hfree.
  - destruct draw as [|b0 [|b1 [|b2 [|b3 [|b4 [|b5 [|]]]]]]]; try discriminate Hlen.
    change (concat [] ++ [b0; b1; b2; b3; b4; b5] ++ rest)%list
      with (b0 :: b1 :: b2 :: b3 :: b4 :: b5 :: rest).
    by rewrite generateShortcode_step, Hfree.
  - inversion Htaken as [|? ? [Hd [e He]] Hrest]; subst.
    destruct d as [|b0 [|b1 [|b2 [|b3 [|b4 [|b5 [|]]]]]]]; try discriminate Hd.
    change (concat ([b0; b1; b2; b3; b4; b5] :: taken) ++ draw ++ rest)%list
      with (b0 :: b1 :: b2 :: b3 :: b4 :: b5 :: (concat taken ++ draw ++ rest)%list).
    rewrite generateShortcode_step, He. by apply IH.
Qed.

(** *** The sweep *)

Lemma lookup_foldl_delete (codes : list string) : forall storage code,
  foldl (fun m c => delete c m) storage codes !! code
  = if decide (code ∈ codes) then None else storage !! code.
Proof.
  induction codes as [|c codes IH]; intros storage code.
  - rewrite decide_False by apply not_elem_of_nil. reflexivity.
  - cbn [foldl]. rewrite IH. destruct (decide (code ∈ codes)) as [Hin | Hnin].
    + rewrite decide_True by (apply elem_of_cons; by right). reflexivity.
    + destruct (decide (c = code)) as [-> | Hne].
      * rewrite decide_True by (apply elem_of_cons; by left).
        apply lookup_delete_eq.
      * rewrite decide_False by (rewrite elem_of_cons; intros [? | ?]; congruence).
        by rewrite lookup_delete_ne.
Qed.

Lemma expired_codes now storage code :
  code ∈ (filter (fun kv : string * UrlEntry => expiresAt kv.2 < now)
                 (map_to_list storage)).*1
  <-> exists urlEntry, storage !! code = Some urlEntry /\ expiresAt urlEntry < now.
Proof.
  rewrite list_elem_of_fmap. split.
  - intros ([k e] & -> & Hin). apply list_elem_of_filter in Hin as [Hexp Hin].
    apply elem_of_map_to_list in Hin. by exists e.
  - intros (e & Hget & Hexp). exists (code, e). split; [reflexivity |].
    apply list_elem_of_filter. split; [exact Hexp |].
    by apply elem_of_map_to_list.
Qed.

Lemma cleanupExpiredUrls_lookup now storage code :
  (cleanupExpiredUrls now storage).2 !! code
  = match storage !! code with
    | Some urlEntry =>
        if decide (expiresAt urlEntry < now) then None else Some urlEntry
    | None => None
    end.
Proof.
  unfold cleanupExpiredUrls. simpl. rewrite lookup_foldl_delete.
  case_decide as Hin.
  - apply expired_codes in Hin as (e & -> & Hexp). by rewrite decide_True.
  - destruct (storage !! code) as [e|] eqn:Hget; [| reflexivity].
    case_decide as Hexp; [| reflexivity].
    destruct Hin. apply expired_codes. by exists e.
Qed.

Lemma cleanupExpiredUrls_filter now storage :
  (cleanupExpiredUrls now storage).2
  = filter (fun kv : string * UrlEntry => ~ expiresAt kv.2 < now) storage.
Proof.
  apply map_eq. intros code. rewrite cleanupExpiredUrls_lookup.
  destruct (storage !! code) as [e|] eqn:Hget.
  - case_decide as Hexp.
    + symmetry. apply map_lookup_filter_None. right. intros e' Hget'. simpl.
      rewrite Hget in Hget'. injection Hget' as <-. tauto.
    + symmetry. by apply map_lookup_filter_Some.
  - symmetry. apply map_lookup_filter_None. by left.
Qed.

End Service.

Section SweepCount.

Import UrlService.

Lemma expired_count now (storage : gmap string UrlEntry) :
  (cleanupExpiredUrls now storage).1
  = size (filter (fun kv : string * UrlEntry => expiresAt kv.2 < now) storage).
Proof.
  unfold cleanupExpiredUrls. cbn [fst].
  rewrite length_fmap, map_filter_alt, map_size_list_to_map; [reflexivity |].
  eapply sublist_NoDup; [apply (NoDup_fst_map_to_list storage) |].
  apply fmap_sublist, sublist_filter.
Qed.

Lemma cleanupExpiredUrls_count now (storage : gmap string UrlEntry) :
  ((cleanupExpiredUrls now storage).1 + size (cleanupExpiredUrls now storage).2
   = size storage)%nat.
Proof.
  rewrite expired_count, cleanupExpiredUrls_filter.
  rewrite <- map_size_disj_union by apply map_disjoint_filter_complement.
  by rewrite map_filter_union_complement.
Qed.

End SweepCount.

(* ===================================================================== *)
(** ** The request handlers *)
(* ===================================================================== *)

Section Controller.

Context `{Platform}.

Import ValidationService UrlService UrlController.

Lemma validateUrl_truthy url :
  isValid (validateUrl url) = true -> JS.truthy url = true.
Proof. destruct url as [[|c s]|]; simpl; [discriminate | reflexivity | discriminate]. Qed.

Lemma validateShortcode_truthy code :
  isValid (validateShortcode code) = true -> JS.truthy code = true.
Proof. destruct code as [[|c s]|]; simpl; [discriminate | reflexivity | discriminate]. Qed.

Lemma truthy_orElse o :
  JS.truthy o = true -> o = Some (JS.orElse o EmptyString).
Proof. destruct o as [[|c s]|]; simpl; [discriminate | reflexivity | discriminate]. Qed.

(** What [storeAndReply] has done when it answers. *)
Lemma storeAndReply_inv now now' url validityMinutes code st resp st' :
  storeAndReply now now' url validityMinutes code st = Some (resp, st') ->
  exists finalShortcode,
    resp = Json 201 (CreatedBody (shortLinkOf finalShortcode)
                                 (now + validityMs validityMinutes))
    /\ urlStorage st'
       = <[finalShortcode :=
             {| shortcode := finalShortcode; originalUrl := url;
                createdAt := now';
                expiresAt := now + validityMs validityMinutes;
                clicks := [] |}]> (urlStorage st)
    /\ (JS.truthy code = true ->
        code = Some finalShortcode /\ entropy st' = entropy st)
    /\ (JS.truthy code = false ->
        generateShortcode (entropy st) (urlStorage st)
        = Some (finalShortcode, entropy st')).
Proof.
  unfold storeAndReply. intros Hrun.
  destruct (JS.truthy code) eqn:Htruthy.
  - injection Hrun as <- <-. exists (JS.orElse code EmptyString). cbn [urlStorage entropy].
    split; [reflexivity |]. split; [reflexivity |].
    split; [| discriminate]. intros _. split; [by apply truthy_orElse | reflexivity].
  - destruct (generateShortcode (entropy st) (urlStorage st)) as [[c pool]|]; [| discriminate].
    injection Hrun as <- <-. exists c. cbn [urlStorage entropy].
    split; [reflexivity |]. split; [reflexivity |].
    split; [discriminate | reflexivity].
Qed.

(** The handler answers 201 only after every validation passed, and
    then through [storeAndReply]. *)
Lemma createShortUrl_created now now' body st link expiry st' :
  createShortUrl now now' body st = Some (Json 201 (CreatedBody link expiry), st') ->
  isValid (validateUrl (body_url body)) = true
  /\ isValid (validateValidity (body_validity body)) = true
  /\ storeAndReply now now' (JS.orElse (body_url body) EmptyString)
       (value (validateValidity (body_validity body))) (body_shortcode body) st
     = Some (Json 201 (CreatedBody link expiry), st').
Proof.
  unfold createShortUrl. intros Hrun.
  destruct (JS.truthy (body_url body)); cbn [negb] in Hrun; [| discriminate Hrun].
  destruct (isValid (validateUrl (body_url body))); cbn [negb] in Hrun;
    [| discriminate Hrun].
  destruct (isValid (validateValidity (body_validity body))); cbn [negb] in Hrun;
    [| discriminate Hrun].
  destruct (JS.truthy (body_shortcode body)); [| by repeat split].
  destruct (isValid (validateShortcode (body_shortcode body))); cbn [negb] in Hrun;
    [| discriminate Hrun].
  destruct (shortcodeExists _ _); [discriminate Hrun | by repeat split].
Qed.

(** A request that passes the three validators and names a custom
    code reaches the presence test. *)
Lemma createShortUrl_custom_valid now now' body st code :
  body_shortcode body = Some code ->
  isValid (validateUrl (body_url body)) = true ->
  isValid (validateValidity (body_validity body)) = true ->
  isValid (validateShortcode (Some code)) = true ->
  createShortUrl now now' body st
  = if shortcodeExists code (urlStorage st) then Some (conflict, st)
    else storeAndReply now now' (JS.orElse (body_url body) EmptyString)
           (value (validateValidity (body_validity body))) (Some code) st.
Proof.
  intros Hcode Hurl Hval Hsc.
  destruct code as [|c s]; [discriminate Hsc |].
  unfold createShortUrl.
  rewrite (validateUrl_truthy _ Hurl), Hurl, Hval, Hcode, Hsc.
  reflexivity.
Qed.

Lemma redirectToUrl_live now now' req storage urlEntry :
  storage !! params_shortcode req = Some urlEntry ->
  now <= expiresAt urlEntry ->
  redirectToUrl now now' req storage
  = (Redirect 302 (originalUrl urlEntry),
     <[params_shortcode req := pushClick (clickOf now' req) urlEntry]> storage).
Proof.
  intros Hget Hlive. unfold redirectToUrl, getUrl. rewrite Hget.
  destruct (Z.gtb_spec now (expiresAt urlEntry)) as [Hexp | _]; [lia |].
  by rewrite (recordClick_present _ _ _ _ Hget).
Qed.

Lemma redirectToUrl_expired now now' req storage urlEntry :
  storage !! params_shortcode req = Some urlEntry ->
  now > expiresAt urlEntry ->
  redirectToUrl now now' req storage = (gone, storage).
Proof.
  intros Hget Hexp. unfold redirectToUrl, getUrl. rewrite Hget.
  destruct (Z.gtb_spec now (expiresAt urlEntry)) as [_ | Hlive]; [reflexivity | lia].
Qed.

Lemma redirectToUrl_keeps_codes now now' req storage other :
  is_Some ((redirectToUrl now now' req storage).2 !! other)
  <-> is_Some (storage !! other).
Proof.
  unfold redirectToUrl, getUrl.
  destruct (storage !! params_shortcode req) as [urlEntry|]; [| reflexivity].
  destruct (now >? expiresAt urlEntry); [reflexivity |].
  cbn [snd]. apply recordClick_keeps_codes.
Qed.

End Controller.

(* ===================================================================== *)
(** ** Redirect and click recording *)
(* ===================================================================== *)

Section Resolve.

Context `{Platform}.

Import ValidationService UrlService UrlController.

(** C1. The redirect handler answers 404 Not Found, and leaves the
    registry as it is, when no record is stored under the code;
    answers 410 Gone, again leaving the registry as it is (the record
    is neither deleted nor given a click), when a record is stored and
    the clock is past its [expiresAt]; and otherwise answers with a 302
    redirect to the record's [originalUrl], the registry differing
    from the previous one in exactly one respect: one click has been
    appended to that record's [clicks]. *)
Theorem redirectToUrl_outcomes (now now' : Z) (req : RedirectRequest)
    (storage : gmap string UrlEntry) :
  match storage !! params_shortcode req with
  | None => redirectToUrl now now' req storage = (notFound, storage)
  | Some urlEntry =>
      if decide (now > expiresAt urlEntry)
      then redirectToUrl now now' req storage = (gone, storage)
      else exists clickData,
        redirectToUrl now now' req storage
        = (Redirect 302 (originalUrl urlEntry),
           <[params_shortcode req :=
               {| shortcode := shortcode urlEntry;
                  originalUrl := originalUrl urlEntry;
                  createdAt := createdAt urlEntry;
                  expiresAt := expiresAt urlEntry;
                  clicks := clicks urlEntry ++ [clickData] |}]> storage)
  end.
Proof.
  destruct (storage !! params_shortcode req) as [urlEntry|] eqn:Hget.
  - case_decide as Hexp.
    + exact (redirectToUrl_expired _ _ _ _ _ Hget Hexp).
    + exists (clickOf now' req). apply (redirectToUrl_live _ _ _ _ _ Hget). lia.
  - unfold redirectToUrl, getUrl. by rewrite Hget.
Qed.

End Resolve.

Section RecordClick.

Import UrlService.

(** C3, as the code has it.  When a record is stored under the code,
    [recordClick] appends the click at the end of that record's
    [clicks], keeps the record's other fields and leaves every other
    record as it was.  When no record is stored under the code,
    [recordClick] leaves the registry as it was and returns as in the
    first case: it reports no error. *)
Theorem recordClick_appends (code : string) (clickData : ClickData)
    (storage : gmap string UrlEntry) :
  match storage !! code with
  | Some urlEntry =>
      exists urlEntry',
        recordClick code clickData storage
        = (Returned, <[code := urlEntry']> storage)
        /\ clicks urlEntry' = (clicks urlEntry ++ [clickData])%list
        /\ shortcode urlEntry' = shortcode urlEntry
        /\ originalUrl urlEntry' = originalUrl urlEntry
        /\ createdAt urlEntry' = createdAt urlEntry
        /\ expiresAt urlEntry' = expiresAt urlEntry
        /\ forall other, other <> code ->
             (recordClick code clickData storage).2 !! other = storage !! other
  | None => recordClick code clickData storage = (Returned, storage)
  end.
Proof.
  destruct (storage !! code) as [urlEntry|] eqn:Hget.
  - exists (pushClick clickData urlEntry).
    rewrite (recordClick_present _ _ _ _ Hget).
    repeat split. intros other Hne. cbn [snd]. by rewrite lookup_insert_ne.
  - by apply recordClick_absent.
Qed.

(** C3, as stated, fails: on a code with no record, [recordClick]
    returns as it does after an append, and reports no error. *)
Lemma recordClick_absent_is_silent :
  recordClick "nocode" Sample.click ∅ = (Returned, ∅)
  /\ (recordClick "abcd12" Sample.click {["abcd12" := Sample.entry]}).1
     = (recordClick "nocode" Sample.click ∅).1
  /\ ~ Design.reportsError (recordClick "nocode" Sample.click ∅).1.
Proof.
  split; [reflexivity |]. split; [reflexivity |].
  intros Herr. by apply Herr.
Qed.

End RecordClick.

(* ===================================================================== *)
(** ** Statistics *)
(* ===================================================================== *)

Section Statistics.

Import UrlService UrlController.

(** C4. For a code with a record stored, whatever its [expiresAt], the
    statistics handler answers 200 with [totalClicks] the length of
    the record's [clicks] and with the clicks in their stored order,
    oldest first, each reduced to its timestamp, referrer, location and
    user-agent label; clicks recorded afterwards show up after the
    earlier ones, in the order of the calls.  For a code with no record
    it answers 404 Not Found. *)
Theorem getUrlStats_reports (code : string) (storage : gmap string UrlEntry) :
  match storage !! code with
  | Some urlEntry =>
      exists stats,
        getUrlStats code storage = Json 200 (StatsBody stats)
        /\ totalClicks stats = length (clicks urlEntry)
        /\ stats_clicks stats
           = map (fun click =>
                    {| view_timestamp := timestamp click;
                       view_referrer := referrer click;
                       view_location := location click;
                       view_userAgent := userAgent click |}) (clicks urlEntry)
        /\ stats_shortcode stats = shortcode urlEntry
        /\ stats_originalUrl stats = originalUrl urlEntry
        /\ stats_createdAt stats = createdAt urlEntry
        /\ stats_expiresAt stats = expiresAt urlEntry
        /\ forall cs, exists stats',
             getUrlStats code (Design.recordAll code cs storage)
             = Json 200 (StatsBody stats')
             /\ totalClicks stats' = (totalClicks stats + length cs)%nat
             /\ stats_clicks stats' = (stats_clicks stats ++ map viewOf cs)%list
  | None => getUrlStats code storage = notFound
  end.
Proof.
  destruct (storage !! code) as [urlEntry|] eqn:Hget.
  - unfold getUrlStats, getUrl. rewrite Hget. eexists. split; [reflexivity |].
    cbn [totalClicks stats_clicks stats_shortcode stats_originalUrl
         stats_createdAt stats_expiresAt].
    repeat (split; [reflexivity |]).
    intros cs. rewrite (recordAll_present _ cs _ _ Hget).
    eexists. split; [reflexivity |].
    cbn [totalClicks stats_clicks clicks].
    split; [apply length_app | apply map_app].
  - unfold getUrlStats, getUrl. by rewrite Hget.
Qed.

End Statistics.

(* ===================================================================== *)
(** ** Creation *)
(* ===================================================================== *)

Section Create.

Context `{Platform}.

Import ValidationService UrlService UrlController.

Lemma validateUrl_normalized url :
  isValid (validateUrl (Some url)) = true ->
  normalizedUrl (validateUrl (Some url)) = Some (JS.trim url).
Proof.
  unfold validateUrl. destruct url as [|c s]; [discriminate |].
  generalize (String c s) as raw. intros raw.
  destruct (JS.hasChar " " (JS.trim raw)); [discriminate |].
  destruct (newURL (JS.trim raw)) as [urlObj|]; [| discriminate].
  repeat (match goal with
          | |- context [if ?b then _ else _] => destruct b; [discriminate |]
          end).
  reflexivity.
Qed.

(** What a 201 answer means for the registry. *)
Lemma createShortUrl_stored now now' body st link expiry st' :
  createShortUrl now now' body st = Some (Json 201 (CreatedBody link expiry), st') ->
  exists code url,
    body_url body = Some url
    /\ isValid (validateUrl (Some url)) = true
    /\ link = shortLinkOf code
    /\ urlStorage st'
       = <[code := {| shortcode := code; originalUrl := url; createdAt := now';
                      expiresAt := expiry; clicks := [] |}]> (urlStorage st).
Proof.
  intros Hrun. apply createShortUrl_created in Hrun as (Hurl & Hval & Hstore).
  apply storeAndReply_inv in Hstore as (code & Hresp & Hst & _).
  injection Hresp as -> ->.
  pose proof (truthy_orElse _ (validateUrl_truthy _ Hurl)) as Hraw.
  exists code, (JS.orElse (body_url body) EmptyString).
  split; [exact Hraw |]. split; [by rewrite <- Hraw |]. by split.
Qed.

(** C2. Take a create request that names a custom shortcode and passes
    the three validators.  The handler answers 409 Conflict exactly
    when a record is stored under that code (a record stays stored
    from its creation until a sweep removes it, whether or not it has
    expired), and then the registry is left as it was; when no record
    is stored under the code, the handler answers 201 and the registry
    gains a fresh record under that code, with the submitted url and
    no click. *)
Theorem createShortUrl_collision now now' body st code :
  body_shortcode body = Some code ->
  isValid (validateUrl (body_url body)) = true ->
  isValid (validateValidity (body_validity body)) = true ->
  isValid (validateShortcode (Some code)) = true ->
  (fst <$> createShortUrl now now' body st = Some conflict
   <-> is_Some (urlStorage st !! code))
  /\ (is_Some (urlStorage st !! code) ->
      createShortUrl now now' body st = Some (conflict, st))
  /\ (urlStorage st !! code = None ->
      exists urlEntry link expiry,
        createShortUrl now now' body st
        = Some (Json 201 (CreatedBody link expiry),
                {| urlStorage := <[code := urlEntry]> (urlStorage st);
                   entropy := entropy st |})
        /\ shortcode urlEntry = code
        /\ body_url body = Some (originalUrl urlEntry)
        /\ clicks urlEntry = []).
Proof.
  intros Hcode Hurl Hval Hsc.
  rewrite (createShortUrl_custom_valid _ _ _ _ _ Hcode Hurl Hval Hsc).
  assert (JS.truthy (Some code) = true) as Htruthy
    by exact (validateShortcode_truthy _ Hsc).
  assert (JS.orElse (Some code) EmptyString = code) as Hor
    by (destruct code; [discriminate Htruthy | reflexivity]).
  unfold storeAndReply. rewrite Htruthy, Hor.
  destruct (shortcodeExists code (urlStorage st)) eqn:Hex.
  - apply shortcodeExists_true in Hex. split; [by split |]. split; [done |].
    intros Hnone. rewrite Hnone in Hex. by destruct Hex.
  - apply shortcodeExists_false in Hex. split; [| split].
    + cbn [fmap option_fmap option_map fst]. rewrite Hex.
      split; [discriminate | intros [e He]; discriminate He].
    + rewrite Hex. intros [e He]. discriminate He.
    + intros _. eexists _, _, _. split; [reflexivity |].
      cbn [shortcode originalUrl clicks].
      split; [reflexivity |]. split; [| reflexivity].
      apply truthy_orElse. exact (validateUrl_truthy _ Hurl).
Qed.

(** C5. When a create request is answered 201, a redirect request for
    the created code made no later than the record's expiry is
    answered with a 302 redirect to the url submitted in the create
    request. *)
Theorem create_then_resolve now now' body st link expiry st' :
  createShortUrl now now' body st = Some (Json 201 (CreatedBody link expiry), st') ->
  exists code url,
    body_url body = Some url
    /\ link = shortLinkOf code
    /\ forall t t' req,
         params_shortcode req = code -> t <= expiry ->
         (redirectToUrl t t' req (urlStorage st')).1 = Redirect 302 url.
Proof.
  intros Hrun.
  apply createShortUrl_stored in Hrun as (code & url & Hurl & _ & Hlink & Hst).
  exists code, url. split; [exact Hurl |]. split; [exact Hlink |].
  intros t t' req Hreq Hlive.
  set (urlEntry := {| shortcode := code; originalUrl := url; createdAt := now';
                      expiresAt := expiry; clicks := [] |}) in Hst.
  rewrite (redirectToUrl_live t t' req (urlStorage st') urlEntry); [reflexivity | |].
  - rewrite Hst, Hreq. apply lookup_insert_eq.
  - exact Hlive.
Qed.

(** C10. When a create request is answered 201, the record stored under
    the created code holds as [originalUrl] the very string submitted
    as [url], not the trimmed [normalizedUrl] the URL validator
    returned for it; a later redirect for the code, made before the
    record expires, goes to that raw string. *)
Theorem createShortUrl_stores_raw_url now now' body st link expiry st' :
  createShortUrl now now' body st = Some (Json 201 (CreatedBody link expiry), st') ->
  exists code url urlEntry,
    body_url body = Some url
    /\ normalizedUrl (validateUrl (body_url body)) = Some (JS.trim url)
    /\ link = shortLinkOf code
    /\ urlStorage st' !! code = Some urlEntry
    /\ originalUrl urlEntry = url
    /\ forall t t' req,
         params_shortcode req = code -> t <= expiresAt urlEntry ->
         (redirectToUrl t t' req (urlStorage st')).1 = Redirect 302 url.
Proof.
  intros Hrun.
  apply createShortUrl_stored in Hrun as (code & url & Hurl & Hvalid & Hlink & Hst).
  eexists code, url, _.
  split; [exact Hurl |].
  split; [rewrite Hurl; by apply validateUrl_normalized |].
  split; [exact Hlink |].
  split; [rewrite Hst; apply lookup_insert_eq |].
  split; [reflexivity |].
  intros t t' req Hreq Hlive.
  set (urlEntry := {| shortcode := code; originalUrl := url; createdAt := now';
                      expiresAt := expiry; clicks := [] |}) in Hst.
  rewrite (redirectToUrl_live t t' req (urlStorage st') urlEntry); [reflexivity | |].
  - rewrite Hst, Hreq. apply lookup_insert_eq.
  - exact Hlive.
Qed.

End Create.

(* ===================================================================== *)
(** ** Lifetime of a record *)
(* ===================================================================== *)

Section Lifetime.

Context `{Platform}.

Import ValidationService UrlService UrlController Registry.

Lemma createShortUrl_keeps_codes now now' body st resp st' code :
  createShortUrl now now' body st = Some (resp, st') ->
  is_Some (urlStorage st !! code) -> is_Some (urlStorage st' !! code).
Proof.
  assert (forall url validityMinutes custom,
    storeAndReply now now' url validityMinutes custom st = Some (resp, st') ->
    is_Some (urlStorage st !! code) -> is_Some (urlStorage st' !! code)) as Hstore.
  { intros url validityMinutes custom Hrun Hin.
    apply storeAndReply_inv in Hrun as (final & _ & -> & _).
    destruct (decide (final = code)) as [-> | Hne].
    - rewrite lookup_insert_eq. eauto.
    - by rewrite lookup_insert_ne. }
  unfold createShortUrl.
  repeat (match goal with
          | |- context [if ?b then _ else _] => destruct b
          end);
    first [ intros [= <- <-]; tauto | apply Hstore ].
Qed.

Lemma step_keeps_codes op st st' code :
  isSweep op = false ->
  step op st = Some st' ->
  is_Some (urlStorage st !! code) -> is_Some (urlStorage st' !! code).
Proof.
  intros Hop Hstep Hin. destruct op; try discriminate Hop; simpl in Hstep.
  - destruct (createShortUrl now now' body st) as [[resp st1]|] eqn:Hrun;
      [| discriminate Hstep].
    injection Hstep as <-. by eapply createShortUrl_keeps_codes.
  - injection Hstep as <-. cbn [urlStorage]. by apply redirectToUrl_keeps_codes.
  - by injection Hstep as <-.
  - by injection Hstep as <-.
  - by injection Hstep as <-.
  - injection Hstep as <-. cbn [urlStorage]. by apply recordClick_keeps_codes.
  - injection Hstep as <-. unfold withStorage, storeUrl. cbn [urlStorage].
    destruct (decide (shortcode urlEntry = code)) as [-> | Hne].
    + rewrite lookup_insert_eq. eauto.
    + by rewrite lookup_insert_ne.
  - by injection Hstep as <-.
Qed.

Lemma run_keeps_codes code : forall ops st st',
  forallb (fun op => negb (isSweep op)) ops = true ->
  run ops st = Some st' ->
  is_Some (urlStorage st !! code) -> is_Some (urlStorage st' !! code).
Proof.
  induction ops as [|op ops IH]; intros st st' Hops Hrun Hin; simpl in *.
  - by injection Hrun as <-.
  - apply andb_true_iff in Hops as [Hop Hops].
    destruct (step op st) as [st1|] eqn:Hstep; [| discriminate Hrun].
    apply (IH st1 st' Hops Hrun).
    eapply step_keeps_codes; [| exact Hstep | exact Hin].
    by destruct (isSweep op).
Qed.

(** C6. When a create request is answered 201, a record is stored
    under the created code, and one still is after any sequence of
    later calls (creations, redirects, statistics, lookups, click
    recordings, stores) that holds no sweep and that runs to its end.
    A sweep at time [now] removes the records whose [expiresAt] is
    earlier than [now], keeps every other record as it is, and returns
    the number of records it removed. *)
Theorem exists_until_sweep :
  (forall now now' body st link expiry st1,
      createShortUrl now now' body st
      = Some (Json 201 (CreatedBody link expiry), st1) ->
      exists code,
        link = shortLinkOf code
        /\ shortcodeExists code (urlStorage st1) = true
        /\ forall ops st2,
             forallb (fun op => negb (isSweep op)) ops = true ->
             run ops st1 = Some st2 ->
             shortcodeExists code (urlStorage st2) = true)
  /\ (forall now (storage : gmap string UrlEntry),
        (forall code,
            (cleanupExpiredUrls now storage).2 !! code
            = match storage !! code with
              | Some urlEntry =>
                  if decide (Design.expiredAt now urlEntry) then None
                  else Some urlEntry
              | None => None
              end)
        /\ (cleanupExpiredUrls now storage).1
           = size (filter (fun kv : string * UrlEntry => expiresAt kv.2 < now) storage)
        /\ ((cleanupExpiredUrls now storage).1
            + size (cleanupExpiredUrls now storage).2 = size storage)%nat).
Proof.
  split.
  - intros now now' body st link expiry st1 Hrun.
    apply createShortUrl_stored in Hrun as (code & url & _ & _ & Hlink & Hst).
    assert (is_Some (urlStorage st1 !! code)) as Hin.
    { rewrite Hst, lookup_insert_eq. eauto. }
    exists code. split; [exact Hlink |].
    split; [by apply shortcodeExists_true |].
    intros ops st2 Hops Hops_run. apply shortcodeExists_true.
    by apply (run_keeps_codes code ops st1 st2).
  - intros now storage. split; [| split].
    + intros code. apply cleanupExpiredUrls_lookup.
    + apply expired_count.
    + apply cleanupExpiredUrls_count.
Qed.

End Lifetime.

(* ===================================================================== *)
(** ** Code generation and validation *)
(* ===================================================================== *)

Section Codes.

Import ValidationService UrlService UrlController.

(** C7, as the code has it.  Every code [generateShortcode] returns is
    6 characters long, is made of characters of nanoid's alphabet
    [[A-Za-z0-9_-]], and is not in use in the registry at that moment;
    and the loop does return, with the first draw that is not in use,
    whenever such a draw comes after finitely many draws in use. *)
Theorem generateShortcode_code :
  (forall (pool : list Z) (storage : gmap string UrlEntry) code rest,
      generateShortcode pool storage = Some (code, rest) ->
      String.length code = 6%nat
      /\ Forall (fun c => Nanoid.isUrlSafe c = true) (list_ascii_of_string code)
      /\ shortcodeExists code storage = false)
  /\ (forall (taken : list (list Z)) draw rest (storage : gmap string UrlEntry),
      Forall (fun d => length d = 6%nat
                       /\ shortcodeExists (Nanoid.ofBytes d) storage = true) taken ->
      length draw = 6%nat ->
      shortcodeExists (Nanoid.ofBytes draw) storage = false ->
      generateShortcode (concat taken ++ draw ++ rest) storage
      = Some (Nanoid.ofBytes draw, rest)).
Proof.
  split.
  - intros pool storage code rest Hgen.
    destruct (generateShortcode_fresh (length pool) pool storage code rest
                (Nat.le_refl _) Hgen) as (Hlen & Hall & Hfree).
    split; [exact Hlen |]. split; [by apply allChars_Forall |].
    by apply shortcodeExists_false.
  - intros taken draw rest storage Htaken Hlen Hfree.
    apply generateShortcode_returns; [| exact Hlen | by apply shortcodeExists_false].
    eapply Forall_impl; [exact Htaken |].
    intros d [Hd Hex]. split; [exact Hd | by apply shortcodeExists_true].
Qed.

(** C7, as stated, fails: a draw can hold [-] and [_], which are not
    alphanumeric. *)
Lemma generateShortcode_not_alphanumeric :
  generateShortcode [7; 8; 44; 255; 0; 63] ∅ = Some ("m-_tut", [])
  /\ ~ Design.alphanumeric "m-_tut".
Proof.
  split; [vm_compute; reflexivity |].
  intros Hall. apply allChars_Forall in Hall. vm_compute in Hall. discriminate Hall.
Qed.

(** C8, as the code has it.  [validateShortcode] rejects an absent or
    empty code; a non-empty code passes exactly when it is 4 to 10
    characters long, made of alphanumeric characters only, and not a
    reserved word whatever the case of its letters.  The create
    handler does not consult the validator for an absent or empty
    code: it handles an empty code as it handles an absent one. *)
Theorem validateShortcode_accepts :
  (forall code : option string,
      match code with
      | None | Some EmptyString =>
          validateShortcode code = invalid "Shortcode cannot be empty"
      | Some s =>
          isValid (validateShortcode code) = true
          <-> (4 <= String.length s <= 10)%nat
              /\ Design.alphanumeric s
              /\ ~ Design.reserved s
      end)
  /\ (forall (P : Platform) now now' url validity st,
        createShortUrl now now'
          {| body_url := url; body_validity := validity;
             body_shortcode := Some EmptyString |} st
        = createShortUrl now now'
            {| body_url := url; body_validity := validity;
               body_shortcode := None |} st).
Proof.
  split.
  - intros [[|c s]|]; [reflexivity | apply validateShortcode_nonempty | reflexivity].
  - intros P now now' url validity st. reflexivity.
Qed.

(** C8, as stated, fails: the validator rejects the empty code and the
    absent one. *)
Lemma validateShortcode_rejects_empty :
  isValid (validateShortcode (Some "")) = false
  /\ isValid (validateShortcode None) = false.
Proof. split; reflexivity. Qed.

(** C9, as the code has it.  [validateValidity] yields the default 30
    for [undefined] and [null]; any other input passes exactly when it
    is a number whose value is an integer from 1 to 43200, and is then
    returned as the value; every other input, among them the empty
    string and the strings of digits, fails and yields no value. *)
Theorem validateValidity_accepts (validity : JS.Value) :
  match validity with
  | JS.Absent | JS.Null =>
      validateValidity validity
      = {| isValid := true; error := None; normalizedUrl := None;
           value := Some (JS.ofZ 30) |}
  | _ =>
      (isValid (validateValidity validity) = true
       <-> exists z, Design.denotes validity z /\ 1 <= z <= 43200)
      /\ (isValid (validateValidity validity) = true ->
          value (validateValidity validity) = Some validity)
      /\ (isValid (validateValidity validity) = false ->
          value (validateValidity validity) = None)
  end.
Proof.
  destruct validity as [| | b | [q | | |] | s |]; try reflexivity;
    try (split; [split; [discriminate | intros (z & [] & _)]
                | split; [discriminate | reflexivity]]).
  split; [apply validateValidity_number |].
  unfold validateValidity. cbn [JS.Number_isInteger JS.ltNum JS.gtNum].
  destruct (JS.isIntegral q); cbn [negb];
    [| split; [discriminate | reflexivity]].
  destruct (_ || _); split; (discriminate || reflexivity).
Qed.

(** C9, as stated, fails: the empty string is rejected and yields no
    default. *)
Lemma validateValidity_rejects_empty_string :
  validateValidity (JS.Str "") = invalid "Validity must be an integer"
  /\ value (validateValidity (JS.Str "")) <> Some (JS.ofZ 30).
Proof. split; [reflexivity | discriminate]. Qed.

End Codes.

(* ===================================================================== *)
(** ** The properties at work on concrete requests *)
(* ===================================================================== *)

Section Instances.

Import ValidationService UrlService UrlController Registry.

Local Existing Instance Sample.platform.

Example validateShortcode_api :
  validateShortcode (Some "api")
  = invalid "Shortcode must be between 4 and 10 characters long".
Proof. reflexivity. Qed.

Example validateShortcode_ab :
  validateShortcode (Some "ab")
  = invalid "Shortcode must be between 4 and 10 characters long".
Proof. reflexivity. Qed.

Example validateShortcode_Abc123 : validateShortcode (Some "Abc123") = valid.
Proof. reflexivity. Qed.

Example validateShortcode_ADMIN :
  validateShortcode (Some "ADMIN")
  = invalid "Shortcode uses a reserved word. Please choose a different shortcode.".
Proof. reflexivity. Qed.

Example validateUrl_ftp :
  validateUrl (Some "ftp://x.com")
  = invalid "URL must use http:// or https:// protocol".
Proof. vm_compute. reflexivity. Qed.

Example validateUrl_space :
  validateUrl (Some "https://ex ample.com") = invalid "URL cannot contain spaces".
Proof. vm_compute. reflexivity. Qed.

Example validateValidity_digits :
  validateValidity (JS.Str "5") = invalid "Validity must be an integer".
Proof. reflexivity. Qed.

Example validateValidity_fraction :
  validateValidity (JS.Num (JS.Finite (3 # 2))) = invalid "Validity must be an integer".
Proof. reflexivity. Qed.

Example validateValidity_bounds :
  isValid (validateValidity (JS.ofZ 1)) = true
  /\ isValid (validateValidity (JS.ofZ 43200)) = true
  /\ isValid (validateValidity (JS.ofZ 0)) = false
  /\ isValid (validateValidity (JS.ofZ 43201)) = false.
Proof. repeat split. Qed.

Example urlAlphabet_length : String.length Nanoid.urlAlphabet = 64%nat.
Proof. reflexivity. Qed.

Example stripThroughLastColon_mapped :
  JS.stripThroughLastColon "::ffff:127.0.0.1" = "127.0.0.1".
Proof. reflexivity. Qed.

(** A record past its expiry still blocks its code, and still answers
    statistics. *)
Example expired_code_still_taken :
  createShortUrl 99999999 99999999 Sample.custom
    (Sample.state {["abcd12" := Sample.entry]} [])
  = Some (conflict, Sample.state {["abcd12" := Sample.entry]} [])
  /\ (redirectToUrl 99999999 99999999 (Sample.request "abcd12")
        {["abcd12" := Sample.entry]}).1 = gone.
Proof. split; vm_compute; reflexivity. Qed.

(** The url is stored with its white space; the validator's
    [normalizedUrl] is the trimmed string. *)
Example padded_url_kept :
  normalizedUrl (validateUrl (body_url Sample.padded)) = Some "https://example.com/x"
  /\ createShortUrl 1000 1000 Sample.padded (Sample.state ∅ Sample.draw)
     = Some (Json 201 (CreatedBody "http://localhost:3100/m-_tut" 1801000),
             Sample.state {["m-_tut" := Sample.paddedEntry]} [])
  /\ (redirectToUrl 2000 2000 (Sample.request "m-_tut")
        {["m-_tut" := Sample.paddedEntry]}).1
     = Redirect 302 " https://example.com/x ".
Proof. repeat split; vm_compute; reflexivity. Qed.

Lemma createShortUrl_collision_witness :
  isValid (validateUrl (body_url Sample.custom)) = true
  /\ createShortUrl 2000 2000 Sample.custom
       (Sample.state {["abcd12" := Sample.entry]} [])
     = Some (conflict, Sample.state {["abcd12" := Sample.entry]} []).
Proof.
  split; [vm_compute; reflexivity |].
  apply (createShortUrl_collision 2000 2000 Sample.custom
           (Sample.state {["abcd12" := Sample.entry]} []) "abcd12");
    try (vm_compute; reflexivity).
  exists Sample.entry. vm_compute. reflexivity.
Defined.

Lemma create_then_resolve_witness :
  createShortUrl 1000 1000 Sample.custom (Sample.state ∅ [])
  = Some (Json 201 (CreatedBody "http://localhost:3100/abcd12" 1801000),
          Sample.state {["abcd12" := Sample.entry]} [])
  /\ exists code url,
       body_url Sample.custom = Some url
       /\ "http://localhost:3100/abcd12" = shortLinkOf code
       /\ forall t t' req,
            params_shortcode req = code -> t <= 1801000 ->
            (redirectToUrl t t' req {["abcd12" := Sample.entry]}).1
            = Redirect 302 url.
Proof.
  split; [vm_compute; reflexivity |].
  refine (create_then_resolve 1000 1000 Sample.custom (Sample.state ∅ [])
            "http://localhost:3100/abcd12" 1801000
            (Sample.state {["abcd12" := Sample.entry]} []) _).
  vm_compute. reflexivity.
Defined.

Lemma createShortUrl_stores_raw_url_witness :
  createShortUrl 1000 1000 Sample.padded (Sample.state ∅ Sample.draw)
  = Some (Json 201 (CreatedBody "http://localhost:3100/m-_tut" 1801000),
          Sample.state {["m-_tut" := Sample.paddedEntry]} [])
  /\ exists code url urlEntry,
       body_url Sample.padded = Some url
       /\ normalizedUrl (validateUrl (body_url Sample.padded)) = Some (JS.trim url)
       /\ "http://localhost:3100/m-_tut" = shortLinkOf code
       /\ ({["m-_tut" := Sample.paddedEntry]} : gmap string UrlEntry) !! code
          = Some urlEntry
       /\ originalUrl urlEntry = url
       /\ forall t t' req,
            params_shortcode req = code -> t <= expiresAt urlEntry ->
            (redirectToUrl t t' req {["m-_tut" := Sample.paddedEntry]}).1
            = Redirect 302 url.
Proof.
  split; [vm_compute; reflexivity |].
  refine (createShortUrl_stores_raw_url 1000 1000 Sample.padded
            (Sample.state ∅ Sample.draw)
            "http://localhost:3100/m-_tut" 1801000
            (Sample.state {["m-_tut" := Sample.paddedEntry]} []) _).
  vm_compute. reflexivity.
Defined.

Lemma exists_until_sweep_witness :
  createShortUrl 1000 1000 Sample.custom (Sample.state ∅ [])
  = Some (Json 201 (CreatedBody "http://localhost:3100/abcd12" 1801000),
          Sample.state {["abcd12" := Sample.entry]} [])
  /\ exists code,
       "http://localhost:3100/abcd12" = shortLinkOf code
       /\ shortcodeExists code {["abcd12" := Sample.entry]} = true
       /\ forall ops st2,
            forallb (fun op => negb (isSweep op)) ops = true ->
            run ops (Sample.state {["abcd12" := Sample.entry]} []) = Some st2 ->
            shortcodeExists code (urlStorage st2) = true.
Proof.
  split; [vm_compute; reflexivity |].
  refine (proj1 exists_until_sweep 1000 1000 Sample.custom (Sample.state ∅ [])
            "http://localhost:3100/abcd12" 1801000
            (Sample.state {["abcd12" := Sample.entry]} []) _).
  vm_compute. reflexivity.
Defined.

Lemma generateShortcode_code_witness :
  generateShortcode Sample.draw ∅ = Some ("m-_tut", [])
  /\ (String.length "m-_tut" = 6%nat
      /\ Forall (fun c => Nanoid.isUrlSafe c = true) (list_ascii_of_string "m-_tut")
      /\ shortcodeExists "m-_tut" ∅ = false)
  /\ generateShortcode (concat [Sample.draw] ++ [0; 1; 2; 3; 4; 5] ++ [9])
       {["m-_tut" := Sample.paddedEntry]}
     = Some (Nanoid.ofBytes [0; 1; 2; 3; 4; 5], [9]).
Proof.
  split; [vm_compute; reflexivity |]. split.
  - apply (proj1 generateShortcode_code Sample.draw ∅ "m-_tut" []).
    vm_compute. reflexivity.
  - apply (proj2 generateShortcode_code [Sample.draw] [0; 1; 2; 3; 4; 5] [9]
             {["m-_tut" := Sample.paddedEntry]}).
    + constructor; [| constructor]. split; vm_compute; reflexivity.
    + reflexivity.
    + vm_compute. reflexivity.
Defined.

End Instances.

(* ===================================================================== *)
(** ** Further facts about the string primitives *)
(* ===================================================================== *)

Section TrimFacts.

Import Notions.

Lemma hasChar_occurs c s : JS.hasChar c s = true <-> occurs c s.
Proof.
  unfold occurs. induction s as [|d s IH]; simpl.
  - split; [discriminate | intros Hin; by apply elem_of_nil in Hin].
  - rewrite orb_true_iff, IH, elem_of_cons, Ascii.eqb_eq. reflexivity.
Qed.

Lemma hasChar_false c s : JS.hasChar c s = false <-> ~ occurs c s.
Proof. rewrite <- hasChar_occurs. by destruct (JS.hasChar c s). Qed.

Lemma startsWithChar_first c s :
  JS.startsWithChar c s = true <-> firstChar s = Some c.
Proof.
  unfold firstChar. destruct s as [|d s]; simpl.
  - split; discriminate.
  - rewrite Ascii.eqb_eq. split; [by intros -> | by intros [= ->]].
Qed.

Lemma endsWithChar_last c s :
  JS.endsWithChar c s = true <-> lastChar s = Some c.
Proof.
  unfold lastChar. induction s as [|d s IH].
  - split; discriminate.
  - destruct s as [|e s].
    + simpl. rewrite Ascii.eqb_eq. split; [by intros -> | by intros [= ->]].
    + change (JS.endsWithChar c (String d (String e s)))
        with (JS.endsWithChar c (String e s)).
      change (last (list_ascii_of_string (String d (String e s))))
        with (last (list_ascii_of_string (String e s))).
      exact IH.
Qed.

Lemma trimStart_first s c :
  firstChar (JS.trimStart s) = Some c -> JS.isWhite c = false.
Proof.
  unfold firstChar. induction s as [|d s IH]; simpl; [discriminate |].
  destruct (JS.isWhite d) eqn:Hd; [exact IH |].
  simpl. by intros [= <-].
Qed.

Lemma trimStart_fixed s :
  (forall c, firstChar s = Some c -> JS.isWhite c = false) -> JS.trimStart s = s.
Proof.
  unfold firstChar. destruct s as [|d s]; simpl; [reflexivity |].
  intros Hfirst. by rewrite (Hfirst d eq_refl).
Qed.

Lemma trimEnd_last s c :
  lastChar (JS.trimEnd s) = Some c -> JS.isWhite c = false.
Proof.
  unfold lastChar. induction s as [|d s IH]; simpl; [discriminate |].
  destruct (JS.trimEnd s) as [|e t] eqn:Ht.
  - destruct (JS.isWhite d) eqn:Hd; simpl; [discriminate | by intros [= <-]].
  - exact IH.
Qed.

Lemma trimEnd_first s c :
  firstChar (JS.trimEnd s) = Some c -> firstChar s = Some c.
Proof.
  unfold firstChar. destruct s as [|d s]; simpl; [discriminate |].
  destruct (JS.trimEnd s) as [|e t]; [| by simpl].
  destruct (JS.isWhite d); simpl; [discriminate | done].
Qed.

Lemma trimEnd_idempotent s : JS.trimEnd (JS.trimEnd s) = JS.trimEnd s.
Proof.
  induction s as [|d s IH]; simpl; [reflexivity |].
  destruct (JS.trimEnd s) as [|e t] eqn:Ht.
  - destruct (JS.isWhite d) eqn:Hd; simpl; [reflexivity | by rewrite Hd].
  - change (JS.trimEnd (String d (String e t)))
      with (match JS.trimEnd (String e t) with
            | EmptyString => if JS.isWhite d then EmptyString else String d EmptyString
            | String a b => String d (String a b)
            end).
    by rewrite IH.
Qed.

Lemma trim_tidy s : tidy (JS.trim s).
Proof.
  unfold JS.trim. split.
  - intros c Hc. apply trimEnd_first in Hc. by apply trimStart_first in Hc.
  - apply trimEnd_last.
Qed.

Lemma trim_idempotent s : JS.trim (JS.trim s) = JS.trim s.
Proof.
  unfold JS.trim at 1.
  rewrite (trimStart_fixed (JS.trim s)) by apply trim_tidy.
  unfold JS.trim. apply trimEnd_idempotent.
Qed.

End TrimFacts.

(* ===================================================================== *)
(** ** The URL validator *)
(* ===================================================================== *)

Section UrlValidator.

Context `{Platform}.

Import ValidationService Notions.

Lemma hostChecks_accepted h :
  negb (JS.truthy (Some h)) = false
  /\ (negb (JS.testClassPlus isHostChar h) || negb (JS.hasChar "." h)) = false
  /\ (JS.startsWithChar "-" h || JS.endsWithChar "-" h
      || JS.startsWithChar "." h || JS.endsWithChar "." h) = false
  <-> hostAccepted h.
Proof.
  unfold hostAccepted.
  rewrite negb_false_iff, !orb_false_iff, !negb_false_iff.
  rewrite testClassPlus_true, hasChar_occurs.
  rewrite <- !not_true_iff_false, !startsWithChar_first, !endsWithChar_last.
  split.
  - intros (_ & ((Hne & Hall) & Hdot) & ((Hs1 & He1) & Hs2) & He2). tauto.
  - intros (Hne & Hall & Hdot & Hs1 & Hs2 & He1 & He2).
    split; [by destruct h |]. tauto.
Qed.

Lemma validateUrl_decision (raw : string) :
  validateUrl (Some raw)
  = match raw with
    | EmptyString => invalid "URL is required"
    | _ =>
        if JS.hasChar " " (JS.trim raw) then invalid "URL cannot contain spaces"
        else match newURL (JS.trim raw) with
             | None => invalid "Invalid URL format"
             | Some urlObj =>
                 if negb (JS.includes ["http:"; "https:"] (protocol urlObj)) then
                   invalid "URL must use http:// or https:// protocol"
                 else if negb (JS.truthy (Some (hostname urlObj))) then
                   invalid "URL must have a valid hostname"
                 else if negb (JS.testClassPlus isHostChar (hostname urlObj))
                         || negb (JS.hasChar "." (hostname urlObj)) then
                   invalid "URL must have a valid domain name"
                 else if JS.startsWithChar "-" (hostname urlObj)
                         || JS.endsWithChar "-" (hostname urlObj)
                         || JS.startsWithChar "." (hostname urlObj)
                         || JS.endsWithChar "." (hostname urlObj) then
                   invalid "URL domain name format is invalid"
                 else {| isValid := true; error := None;
                         normalizedUrl := Some (JS.trim raw); value := None |}
             end
    end.
Proof. destruct raw; reflexivity. Qed.

Lemma validateUrl_valid_result (url : string) :
  isValid (validateUrl (Some url)) = true ->
  validateUrl (Some url)
  = {| isValid := true; error := None;
       normalizedUrl := Some (JS.trim url); value := None |}.
Proof.
  rewrite validateUrl_decision.
  destruct url as [|c s]; [discriminate |]. cbv beta iota.
  generalize (String c s) as raw. intros raw.
  destruct (JS.hasChar " " (JS.trim raw)); [discriminate |].
  destruct (newURL (JS.trim raw)) as [urlObj|]; [| discriminate].
  repeat (match goal with
          | |- context [if ?b then _ else _] => destruct b; [discriminate |]
          end).
  reflexivity.
Qed.

(** X1. The URL validator passes a url exactly when the url is not
    empty, its trimmed form holds no space, the URL parser reads the
    trimmed form, the parsed protocol is [http:] or [https:], and the
    parsed host name is made of letters, digits, dots and hyphens, holds
    a dot, and neither starts nor ends with a dot or a hyphen.  When it
    passes, it reports no error and returns the trimmed url; an absent
    url is rejected. *)
Theorem validateUrl_accepts (url : string) :
  (isValid (validateUrl (Some url)) = true
   <-> url <> EmptyString
       /\ ~ occurs " " (JS.trim url)
       /\ exists urlObj,
            newURL (JS.trim url) = Some urlObj
            /\ (protocol urlObj = "http:" \/ protocol urlObj = "https:")
            /\ hostAccepted (hostname urlObj))
  /\ (isValid (validateUrl (Some url)) = true ->
      validateUrl (Some url)
      = {| isValid := true; error := None;
           normalizedUrl := Some (JS.trim url); value := None |})
  /\ isValid (validateUrl None) = false.
Proof.
  split; [| split; [| reflexivity]].
  - rewrite validateUrl_decision. destruct url as [|c s].
    { split; [discriminate | intros [Hne _]; by destruct Hne]. }
    cbv beta iota.
    assert (String c s <> EmptyString) as Hne by discriminate.
    revert Hne. generalize (String c s) as raw. intros raw Hne.
    destruct (JS.hasChar " " (JS.trim raw)) eqn:Hspace.
    { apply hasChar_occurs in Hspace.
      split; [discriminate | intros (_ & Hno & _); contradiction]. }
    apply hasChar_false in Hspace.
    destruct (newURL (JS.trim raw)) as [urlObj|] eqn:Hparse.
    2:{ split; [discriminate | intros (_ & _ & obj & Hobj & _); discriminate Hobj]. }
    destruct (JS.includes ["http:"; "https:"] (protocol urlObj)) eqn:Hproto; cbn [negb].
    2:{ split; [discriminate |]. intros (_ & _ & obj & [= <-] & Hp & _).
        assert (JS.includes ["http:"; "https:"] (protocol urlObj) = true) as Habs;
          [| congruence].
        apply includes_true. destruct Hp as [-> | ->]; set_solver. }
    apply includes_true in Hproto.
    assert (protocol urlObj = "http:" \/ protocol urlObj = "https:") as Hp.
    { apply elem_of_cons in Hproto as [-> | Hproto]; [by left |].
      apply elem_of_cons in Hproto as [-> | Hproto]; [by right |].
      by apply elem_of_nil in Hproto. }
    pose proof (hostChecks_accepted (hostname urlObj)) as Hhost.
    destruct (negb (JS.truthy (Some (hostname urlObj)))).
    { split; [discriminate |]. intros (_ & _ & obj & [= <-] & _ & Hacc).
      apply Hhost in Hacc as [Habs _]. discriminate Habs. }
    destruct (negb (JS.testClassPlus isHostChar (hostname urlObj))
              || negb (JS.hasChar "." (hostname urlObj))).
    { split; [discriminate |]. intros (_ & _ & obj & [= <-] & _ & Hacc).
      apply Hhost in Hacc as (_ & Habs & _). discriminate Habs. }
    destruct (JS.startsWithChar "-" (hostname urlObj)
              || JS.endsWithChar "-" (hostname urlObj)
              || JS.startsWithChar "." (hostname urlObj)
              || JS.endsWithChar "." (hostname urlObj)).
    { split; [discriminate |]. intros (_ & _ & obj & [= <-] & _ & Hacc).
      apply Hhost in Hacc as (_ & _ & Habs). discriminate Habs. }
    split; [| reflexivity]. intros _. split; [exact Hne |]. split; [exact Hspace |].
    exists urlObj. split; [reflexivity |]. split; [exact Hp |].
    apply Hhost. by repeat split.
  - apply validateUrl_valid_result.
Qed.

(** X2. Provided the URL parser rejects the empty string, the trimmed
    url a successful validation returns is in normal form: it has no
    white space at either end, it holds no space, and validating it
    again gives the same result, with itself as the normalized url. *)
Theorem validateUrl_normal_form (url : string) :
  newURL EmptyString = None ->
  isValid (validateUrl (Some url)) = true ->
  tidy (JS.trim url)
  /\ ~ occurs " " (JS.trim url)
  /\ validateUrl (Some (JS.trim url)) = validateUrl (Some url)
  /\ normalizedUrl (validateUrl (Some (JS.trim url))) = Some (JS.trim url).
Proof.
  intros Hempty Hvalid.
  assert (validateUrl (Some (JS.trim url)) = validateUrl (Some url)) as Hsame.
  { rewrite (validateUrl_decision (JS.trim url)), (validateUrl_decision url).
    rewrite validateUrl_decision in Hvalid.
    destruct url as [|c s]; [discriminate Hvalid |]. cbv beta iota in *.
    destruct (JS.trim (String c s)) as [|d t] eqn:Htrim.
    - cbn [JS.hasChar] in Hvalid. rewrite Hempty in Hvalid. discriminate Hvalid.
    - cbv beta iota. rewrite <- Htrim, trim_idempotent. reflexivity. }
  split; [apply trim_tidy |]. split.
  - apply hasChar_false. rewrite validateUrl_decision in Hvalid.
    destruct url as [|c s]; [discriminate Hvalid |]. cbv beta iota in Hvalid.
    by destruct (JS.hasChar " " (JS.trim (String c s))).
  - split; [exact Hsame |]. rewrite Hsame.
    by rewrite (validateUrl_valid_result url Hvalid).
Qed.

End UrlValidator.

(* ===================================================================== *)
(** ** What a creation does to the registry *)
(* ===================================================================== *)

Section CreateEffects.

Context `{Platform}.

Import ValidationService UrlService UrlController Notions.

(** The three ways the create handler answers. *)
Lemma createShortUrl_cases now now' body st resp st' :
  createShortUrl now now' body st = Some (resp, st') ->
  (exists message, resp = validationError message /\ st' = st)
  \/ (resp = conflict /\ st' = st)
  \/ (exists code,
        resp = Json 201 (CreatedBody (shortLinkOf code)
                 (now + validityMs (value (validateValidity (body_validity body)))))
        /\ isValid (validateValidity (body_validity body)) = true
        /\ urlStorage st !! code = None
        /\ urlStorage st'
           = <[code :=
                 {| shortcode := code;
                    originalUrl := JS.orElse (body_url body) EmptyString;
                    createdAt := now';
                    expiresAt :=
                      now + validityMs (value (validateValidity (body_validity body)));
                    clicks := [] |}]> (urlStorage st)).
Proof.
  unfold createShortUrl. intros Hrun.
  destruct (JS.truthy (body_url body)); cbn [negb] in Hrun;
    [| injection Hrun as <- <-; left; eauto].
  destruct (isValid (validateUrl (body_url body))); cbn [negb] in Hrun;
    [| injection Hrun as <- <-; left; eauto].
  destruct (isValid (validateValidity (body_validity body))) eqn:Hval; cbn [negb] in Hrun;
    [| injection Hrun as <- <-; left; eauto].
  destruct (JS.truthy (body_shortcode body)) eqn:Htruthy.
  - destruct (isValid (validateShortcode (body_shortcode body))); cbn [negb] in Hrun;
      [| injection Hrun as <- <-; left; eauto].
    destruct (shortcodeExists _ _) eqn:Hex;
      [injection Hrun as <- <-; right; left; by split |].
    apply shortcodeExists_false in Hex.
    apply storeAndReply_inv in Hrun as (code & -> & -> & Hcustom & _).
    destruct (Hcustom Htruthy) as [Hcode _].
    rewrite Hcode in Hex.
    assert (JS.orElse (Some code) EmptyString = code) as Hor.
    { rewrite Hcode in Htruthy. by destruct code. }
    rewrite Hor in Hex. right; right. exists code. by repeat split.
  - apply storeAndReply_inv in Hrun as (code & -> & -> & _ & Hgen).
    specialize (Hgen Htruthy).
    destruct (generateShortcode_fresh _ _ _ _ _ (Nat.le_refl _) Hgen) as (_ & _ & Hfree).
    right; right. exists code. by repeat split.
Qed.


(** X4. A creation answered 201 adds exactly one record and touches no
    other: the code it reports was free before, the registry grows by
    one, every record stored before is still stored unchanged, and the
    new record sits under its own code with the handler's second clock
    reading as creation time, the reported expiry and no click. *)
Theorem createShortUrl_adds_one now now' body st link expiry st' :
  createShortUrl now now' body st = Some (Json 201 (CreatedBody link expiry), st') ->
  exists code urlEntry,
    link = shortLinkOf code
    /\ urlStorage st !! code = None
    /\ urlStorage st' !! code = Some urlEntry
    /\ size (urlStorage st') = S (size (urlStorage st))
    /\ (forall other old,
          urlStorage st !! other = Some old -> urlStorage st' !! other = Some old)
    /\ shortcode urlEntry = code
    /\ createdAt urlEntry = now'
    /\ expiresAt urlEntry = expiry
    /\ clicks urlEntry = [].
Proof.
  intros Hrun.
  apply createShortUrl_cases in Hrun
    as [(message & Hresp & _) | [[Hresp _] | (code & Hresp & _ & Hfree & Hst)]];
    try discriminate Hresp.
  injection Hresp as -> ->. eexists code, _.
  split; [reflexivity |]. split; [exact Hfree |].
  split; [rewrite Hst; apply lookup_insert_eq |].
  split; [rewrite Hst; by apply map_size_insert_None |]. split.
  - intros other old Hold. rewrite Hst, lookup_insert_ne; [exact Hold |].
    intros ->. congruence.
  - by repeat split.
Qed.

Lemma denotes_unique v z z' :
  Design.denotes v z -> Design.denotes v z' -> z = z'.
Proof.
  destruct v as [| | b | [q | | |] | s |]; try contradiction.
  unfold Design.denotes, Qeq. simpl. nia.
Qed.

Lemma validityMs_of v :
  isValid (validateValidity v) = true ->
  match v with
  | JS.Absent | JS.Null => validityMs (value (validateValidity v)) = 30 * 60 * 1000
  | _ => exists z, Design.denotes v z /\ 1 <= z <= 43200
                   /\ validityMs (value (validateValidity v)) = z * 60 * 1000
  end.
Proof.
  intros Hvalid.
  destruct v as [| | b | [q | | |] | s |]; try reflexivity; try discriminate Hvalid.
  pose proof Hvalid as Hnum. apply validateValidity_number in Hnum as (z & Hz & Hrange).
  exists z. split; [exact Hz |]. split; [exact Hrange |].
  unfold validateValidity in *. cbn [JS.Number_isInteger JS.ltNum JS.gtNum] in *.
  destruct (JS.isIntegral q); cbn [negb] in *; [| discriminate Hvalid].
  destruct (_ || _); [discriminate Hvalid |].
  cbn [value]. unfold validityMs, default, id, JS.toInteger.
  unfold Design.denotes, Qeq in Hz. simpl in Hz.
  replace (Qnum q) with (z * Z.pos (Qden q)) by lia.
  rewrite Z.quot_mul by lia. reflexivity.
Qed.

(** X5. The expiry a creation reports is the handler's first clock
    reading plus the validity in minutes: 30 minutes later when the
    request carries no validity, [z] minutes later when it carries the
    integer [z]; in every case between one minute and thirty days after
    the reading. *)
Theorem createShortUrl_expiry now now' body st link expiry st' :
  createShortUrl now now' body st = Some (Json 201 (CreatedBody link expiry), st') ->
  now + 60000 <= expiry <= now + 2592000000
  /\ (body_validity body = JS.Absent \/ body_validity body = JS.Null ->
      expiry = now + 1800000)
  /\ (forall z, Design.denotes (body_validity body) z -> expiry = now + z * 60000).
Proof.
  intros Hrun.
  apply createShortUrl_cases in Hrun
    as [(message & Hresp & _) | [[Hresp _] | (code & Hresp & Hval & _)]];
    try discriminate Hresp.
  injection Hresp as _ ->.
  pose proof (validityMs_of _ Hval) as Hms.
  destruct (body_validity body) as [| | b | n | s |] eqn:Hv;
    try (rewrite Hms; split; [lia |]; split; [intros _; lia |];
         intros z Hz; contradiction);
    destruct Hms as (z & Hz & Hrange & ->);
    (split; [lia |]; split; [intros [Habs | Habs]; discriminate Habs |]);
    intros z' Hz'; rewrite (denotes_unique _ _ _ Hz' Hz); lia.
Qed.

End CreateEffects.

(* ===================================================================== *)
(** ** Invariants of the registry *)
(* ===================================================================== *)

Section RegistryInvariants.

Context `{Platform}.

Import ValidationService UrlService UrlController Registry Notions.

(** What a redirect does to the registry. *)
Lemma redirectToUrl_storage now now' req (storage : gmap string UrlEntry) :
  (statusOf (redirectToUrl now now' req storage).1 <> 302
   /\ (redirectToUrl now now' req storage).2 = storage)
  \/ (exists urlEntry,
        storage !! params_shortcode req = Some urlEntry
        /\ now <= expiresAt urlEntry
        /\ redirectToUrl now now' req storage
           = (Redirect 302 (originalUrl urlEntry),
              <[params_shortcode req := pushClick (clickOf now' req) urlEntry]> storage)).
Proof.
  unfold redirectToUrl, getUrl.
  destruct (storage !! params_shortcode req) as [urlEntry|] eqn:Hget.
  - destruct (Z.gtb_spec now (expiresAt urlEntry)) as [Hexp | Hlive].
    + left. by split.
    + right. exists urlEntry. split; [reflexivity |]. split; [lia |].
      by rewrite (recordClick_present _ _ _ _ Hget).
  - left. by split.
Qed.

Lemma extends_refl urlEntry : extends urlEntry urlEntry.
Proof. by repeat split. Qed.

Lemma extends_trans a b c : extends a b -> extends b c -> extends a c.
Proof.
  intros (H1 & H2 & H3 & H4 & H5) (K1 & K2 & K3 & K4 & K5).
  repeat split; try congruence. by etrans.
Qed.

Lemma extends_pushClick clickData urlEntry :
  extends urlEntry (pushClick clickData urlEntry).
Proof. repeat split. cbn [pushClick clicks]. by apply prefix_app_r. Qed.

Lemma recordClick_extends code clickData (storage : gmap string UrlEntry) other urlEntry :
  storage !! other = Some urlEntry ->
  exists urlEntry',
    (recordClick code clickData storage).2 !! other = Some urlEntry'
    /\ extends urlEntry urlEntry'.
Proof.
  intros Hother. unfold recordClick.
  destruct (storage !! code) as [e|] eqn:Hget; cbn [snd].
  - destruct (decide (code = other)) as [-> | Hne].
    + rewrite lookup_insert_eq. eexists. split; [reflexivity |].
      rewrite Hget in Hother. injection Hother as <-. apply extends_pushClick.
    + rewrite lookup_insert_ne by done. eauto using extends_refl.
  - eauto using extends_refl.
Qed.

Lemma step_extends op st st' code urlEntry :
  viaHandlers op = true ->
  step op st = Some st' ->
  urlStorage st !! code = Some urlEntry ->
  exists urlEntry', urlStorage st' !! code = Some urlEntry' /\ extends urlEntry urlEntry'.
Proof.
  intros Hop Hstep Hget. destruct op; try discriminate Hop; simpl in Hstep.
  - destruct (createShortUrl now now' body st) as [[resp st1]|] eqn:Hrun;
      [| discriminate Hstep].
    injection Hstep as <-.
    apply createShortUrl_cases in Hrun
      as [(message & _ & ->) | [[_ ->] | (fresh & _ & _ & Hfree & ->)]];
      eauto using extends_refl.
    exists urlEntry. split; [| apply extends_refl].
    rewrite lookup_insert_ne; [exact Hget | intros ->; congruence].
  - injection Hstep as <-. cbn [urlStorage withStorage].
    destruct (redirectToUrl_storage now now' req (urlStorage st))
      as [[_ ->] | (e & He & _ & ->)]; [eauto using extends_refl |].
    cbn [snd]. destruct (decide (params_shortcode req = code)) as [Heq | Hne].
    + rewrite Heq in *. rewrite lookup_insert_eq. eexists. split; [reflexivity |].
      rewrite He in Hget. injection Hget as <-. apply extends_pushClick.
    + rewrite lookup_insert_ne by done. eauto using extends_refl.
  - injection Hstep as <-. eauto using extends_refl.
  - injection Hstep as <-. eauto using extends_refl.
  - injection Hstep as <-. eauto using extends_refl.
  - injection Hstep as <-. cbn [urlStorage withStorage]. by apply recordClick_extends.
  - injection Hstep as <-. eauto using extends_refl.
Qed.

(** X6. Across any sequence of calls made through the handlers or
    through click recording (no direct store, no sweep), a stored record
    is never replaced or removed: the record found under the code
    afterwards has the same shortcode, url, creation time and expiry,
    and its clicks are the earlier clicks followed, at most, by new
    ones. *)
Theorem records_only_grow (ops : list Op) : forall st st' code urlEntry,
  forallb viaHandlers ops = true ->
  run ops st = Some st' ->
  urlStorage st !! code = Some urlEntry ->
  exists urlEntry',
    urlStorage st' !! code = Some urlEntry' /\ extends urlEntry urlEntry'.
Proof.
  induction ops as [|op ops IH]; intros st st' code urlEntry Hops Hrun Hget; simpl in *.
  - injection Hrun as <-. eauto using extends_refl.
  - apply andb_true_iff in Hops as [Hop Hops].
    destruct (step op st) as [st1|] eqn:Hstep; [| discriminate Hrun].
    destruct (step_extends _ _ _ _ _ Hop Hstep Hget) as (e1 & Hget1 & Hext1).
    destruct (IH _ _ _ _ Hops Hrun Hget1) as (e2 & Hget2 & Hext2).
    exists e2. split; [exact Hget2 | by eapply extends_trans].
Qed.

Lemma step_keyed op st st' :
  keyed (urlStorage st) -> step op st = Some st' -> keyed (urlStorage st').
Proof.
  intros Hkeyed Hstep. destruct op; simpl in Hstep.
  - destruct (createShortUrl now now' body st) as [[resp st1]|] eqn:Hrun;
      [| discriminate Hstep].
    injection Hstep as <-.
    apply createShortUrl_cases in Hrun
      as [(message & _ & ->) | [[_ ->] | (fresh & _ & _ & _ & ->)]]; try done.
    intros code e. destruct (decide (fresh = code)) as [-> | Hne].
    + rewrite lookup_insert_eq. by intros [= <-].
    + rewrite lookup_insert_ne by done. apply Hkeyed.
  - injection Hstep as <-. cbn [urlStorage withStorage].
    destruct (redirectToUrl_storage now now' req (urlStorage st))
      as [[_ ->] | (e & He & _ & ->)]; [done |].
    cbn [snd]. intros code e'.
    destruct (decide (params_shortcode req = code)) as [Heq | Hne].
    + rewrite Heq in *. rewrite lookup_insert_eq. intros [= <-].
      cbn [pushClick shortcode]. by apply Hkeyed.
    + rewrite lookup_insert_ne by done. apply Hkeyed.
  - by injection Hstep as <-.
  - by injection Hstep as <-.
  - by injection Hstep as <-.
  - injection Hstep as <-. cbn [urlStorage withStorage]. unfold recordClick.
    destruct (urlStorage st !! code) as [e|] eqn:He; cbn [snd]; [| done].
    intros k e'. destruct (decide (code = k)) as [-> | Hne].
    + rewrite lookup_insert_eq. intros [= <-]. cbn [pushClick shortcode]. by apply Hkeyed.
    + rewrite lookup_insert_ne by done. apply Hkeyed.
  - injection Hstep as <-. cbn [urlStorage withStorage]. unfold storeUrl.
    intros k e'. destruct (decide (shortcode urlEntry = k)) as [Heq | Hne].
    + rewrite <- Heq, lookup_insert_eq. by intros [= <-].
    + rewrite lookup_insert_ne by done. apply Hkeyed.
  - by injection Hstep as <-.
  - injection Hstep as <-. cbn [urlStorage withStorage].
    unfold keyed. intros k e'.
    pose proof (cleanupExpiredUrls_lookup now (urlStorage st) k) as Hlook.
    unfold cleanupExpiredUrls in Hlook. cbn [snd] in Hlook. rewrite Hlook.
    destruct (urlStorage st !! k) as [e|] eqn:He; [| discriminate].
    case_decide; [discriminate |]. intros [= <-]. by apply Hkeyed.
Qed.

Lemma run_keyed (ops : list Op) : forall st st',
  keyed (urlStorage st) -> run ops st = Some st' -> keyed (urlStorage st').
Proof.
  induction ops as [|op ops IH]; intros st st' Hkeyed Hrun; simpl in Hrun.
  - by injection Hrun as <-.
  - destruct (step op st) as [st1|] eqn:Hstep; [| discriminate Hrun].
    eapply IH; [| exact Hrun]. by eapply step_keyed.
Qed.

(** X7. Starting from the empty registry, whatever calls are made
    (direct stores and sweeps included), every record sits under its own
    shortcode; so the statistics answered for a code carry that code as
    their [shortcode], and so does every record a lookup returns. *)
Theorem registry_keyed (ops : list Op) (pool : list Z) (st : State) :
  run ops {| urlStorage := ∅; entropy := pool |} = Some st ->
  keyed (urlStorage st)
  /\ (forall code stats,
        getUrlStats code (urlStorage st) = Json 200 (StatsBody stats) ->
        stats_shortcode stats = code)
  /\ (forall code urlEntry,
        getUrl code (urlStorage st) = Some urlEntry -> shortcode urlEntry = code).
Proof.
  intros Hrun.
  assert (keyed (urlStorage st)) as Hkeyed.
  { eapply run_keyed; [| exact Hrun]. intros code e. cbn [urlStorage].
    by rewrite lookup_empty. }
  split; [exact Hkeyed |]. split.
  - intros code stats. unfold getUrlStats, getUrl.
    destruct (urlStorage st !! code) as [e|] eqn:He; [| discriminate].
    intros [= <-]. cbn [stats_shortcode]. by apply Hkeyed.
  - intros code e. apply Hkeyed.
Qed.

End RegistryInvariants.

(* ===================================================================== *)
(** ** Redirects, statistics and the sweep together *)
(* ===================================================================== *)

Section Composition.

Context `{Platform}.

Import ValidationService UrlService UrlController Registry Notions.

Lemma getUrlStats_present code (storage : gmap string UrlEntry) urlEntry :
  storage !! code = Some urlEntry ->
  getUrlStats code storage
  = Json 200 (StatsBody
      {| stats_shortcode := shortcode urlEntry;
         stats_originalUrl := originalUrl urlEntry;
         stats_createdAt := createdAt urlEntry;
         stats_expiresAt := expiresAt urlEntry;
         totalClicks := length (clicks urlEntry);
         stats_clicks := map viewOf (clicks urlEntry) |}).
Proof. intros Hget. unfold getUrlStats, getUrl. by rewrite Hget. Qed.

(** X8. A redirect answered 302 shows up in the statistics of its code
    as exactly one more click, placed last and built from that request;
    a redirect answered otherwise changes nothing in the registry; and
    no redirect changes the statistics of another code. *)
Theorem redirectToUrl_counted now now' req (storage : gmap string UrlEntry) :
  (forall target,
      (redirectToUrl now now' req storage).1 = Redirect 302 target ->
      exists stats stats',
        getUrlStats (params_shortcode req) storage = Json 200 (StatsBody stats)
        /\ getUrlStats (params_shortcode req) (redirectToUrl now now' req storage).2
           = Json 200 (StatsBody stats')
        /\ totalClicks stats' = S (totalClicks stats)
        /\ stats_clicks stats'
           = (stats_clicks stats ++ [viewOf (clickOf now' req)])%list
        /\ stats_originalUrl stats = target)
  /\ (statusOf (redirectToUrl now now' req storage).1 <> 302 ->
      (redirectToUrl now now' req storage).2 = storage)
  /\ (forall other,
        other <> params_shortcode req ->
        getUrlStats other (redirectToUrl now now' req storage).2
        = getUrlStats other storage).
Proof.
  destruct (redirectToUrl_storage now now' req storage)
    as [[Hstatus Hsame] | (e & He & Hlive & Hrun)].
  - split; [| split].
    + intros target Hresp. rewrite Hresp in Hstatus. by destruct Hstatus.
    + done.
    + intros other _. by rewrite Hsame.
  - rewrite Hrun. cbn [fst snd]. split; [| split].
    + intros target [= <-].
      rewrite (getUrlStats_present _ _ _ He).
      rewrite (getUrlStats_present _ _ (pushClick (clickOf now' req) e))
        by apply lookup_insert_eq.
      eexists _, _. split; [reflexivity |]. split; [reflexivity |].
      cbn [totalClicks stats_clicks stats_originalUrl pushClick clicks].
      split; [rewrite length_app; simpl; lia |].
      split; [by rewrite map_app | reflexivity].
    + intros Hne. by destruct Hne.
    + intros other Hne. unfold getUrlStats, getUrl.
      by rewrite lookup_insert_ne.
Qed.

Lemma redirectAll_step now now' req reqs (storage : gmap string UrlEntry) :
  redirectAll ((now, now', req) :: reqs) storage
  = ((redirectToUrl now now' req storage).1
       :: (redirectAll reqs (redirectToUrl now now' req storage).2).1,
     (redirectAll reqs (redirectToUrl now now' req storage).2).2).
Proof.
  cbn [redirectAll].
  destruct (redirectToUrl now now' req storage) as [resp storage'].
  cbn [fst snd]. by destruct (redirectAll reqs storage').
Qed.

(** X9. After a sequence of redirect requests for one code that has a
    record, the statistics of that code count as many more clicks as
    there were 302 answers: requests answered 410 or 404 are not
    counted, and every request gets an answer. *)
Theorem redirectAll_counted (reqs : list (Z * Z * RedirectRequest)) :
  forall (storage : gmap string UrlEntry) code urlEntry,
    Forall (fun r => params_shortcode r.2 = code) reqs ->
    storage !! code = Some urlEntry ->
    exists stats stats',
      getUrlStats code storage = Json 200 (StatsBody stats)
      /\ getUrlStats code (redirectAll reqs storage).2 = Json 200 (StatsBody stats')
      /\ totalClicks stats'
         = (totalClicks stats + redirects (redirectAll reqs storage).1)%nat
      /\ length (redirectAll reqs storage).1 = length reqs.
Proof.
  induction reqs as [|[[now now'] req] reqs IH]; intros storage code e Hall Hget.
  - cbn [redirectAll fst snd]. rewrite (getUrlStats_present _ _ _ Hget). eexists _, _.
    split; [reflexivity |]. split; [reflexivity |].
    unfold redirects. cbn. split; [lia | reflexivity].
  - inversion Hall as [|? ? Hcode Hrest]; subst. cbn [snd] in *.
    rewrite redirectAll_step. cbn [fst snd].
    rewrite (getUrlStats_present _ _ _ Hget).
    destruct (redirectToUrl_storage now now' req storage)
      as [[Hstatus Hsame] | (e0 & He0 & Hlive & Hrun)].
    + rewrite Hsame.
      destruct (IH storage _ e Hrest Hget) as (s0 & s1 & Hs0 & Hs1 & Hcount & Hlen).
      rewrite (getUrlStats_present _ _ _ Hget) in Hs0. injection Hs0 as <-.
      eexists _, s1. split; [reflexivity |]. split; [exact Hs1 |].
      unfold redirects in *. rewrite filter_cons.
      rewrite decide_False by exact Hstatus.
      split; [exact Hcount | cbn [length]; by rewrite Hlen].
    + rewrite Hrun. cbn [fst snd].
      rewrite Hget in He0. injection He0 as <-.
      destruct (IH (<[params_shortcode req := pushClick (clickOf now' req) e]> storage)
                  _ (pushClick (clickOf now' req) e) Hrest (lookup_insert_eq _ _ _))
        as (s0 & s1 & Hs0 & Hs1 & Hcount & Hlen).
      rewrite (getUrlStats_present _ _ (pushClick (clickOf now' req) e))
        in Hs0 by apply lookup_insert_eq.
      injection Hs0 as <-.
      eexists _, s1. split; [reflexivity |]. split; [exact Hs1 |].
      unfold redirects in *. rewrite filter_cons.
      rewrite decide_True by reflexivity.
      cbn [totalClicks pushClick clicks length] in *. rewrite length_app in Hcount.
      cbn [length] in Hcount.
      split; [lia | by rewrite Hlen].
Qed.

(** X10. A sweep made at or before the time of a redirect commutes with
    it: redirecting after the sweep leaves the registry that sweeping
    after the redirect leaves; and the sweep changes the answer of the
    redirect in one case only, a 410 Gone becoming a 404 Not Found. *)
Theorem sweep_then_redirect now t t' req (storage : gmap string UrlEntry) :
  now <= t ->
  (redirectToUrl t t' req (cleanupExpiredUrls now storage).2).2
  = (cleanupExpiredUrls now (redirectToUrl t t' req storage).2).2
  /\ ((redirectToUrl t t' req (cleanupExpiredUrls now storage).2).1
      = (redirectToUrl t t' req storage).1
      \/ ((redirectToUrl t t' req storage).1 = gone
          /\ (redirectToUrl t t' req (cleanupExpiredUrls now storage).2).1 = notFound)).
Proof.
  intros Hle.
  pose proof (cleanupExpiredUrls_lookup now storage (params_shortcode req)) as Hswept.
  destruct (storage !! params_shortcode req) as [e|] eqn:Hget.
  - destruct (decide (expiresAt e < now)) as [Hexp | Hkeep].
    + rewrite (redirectToUrl_expired t t' req storage e Hget) by lia.
      unfold redirectToUrl at 1 3, getUrl. rewrite Hswept. cbn [fst snd].
      split; [reflexivity | right; by split].
    + destruct (decide (t > expiresAt e)) as [Hgone | Hlive].
      * rewrite (redirectToUrl_expired t t' req storage e Hget Hgone).
        rewrite (redirectToUrl_expired t t' req _ e Hswept Hgone).
        cbn [fst snd]. split; [reflexivity | by left].
      * rewrite (redirectToUrl_live t t' req storage e Hget) by lia.
        rewrite (redirectToUrl_live t t' req _ e Hswept) by lia.
        cbn [fst snd]. split; [| by left].
        apply map_eq. intros k. rewrite cleanupExpiredUrls_lookup.
        destruct (decide (params_shortcode req = k)) as [<- | Hne].
        -- rewrite !lookup_insert_eq. cbn [pushClick expiresAt].
           by rewrite decide_False.
        -- rewrite !lookup_insert_ne by done. by rewrite cleanupExpiredUrls_lookup.
  - unfold redirectToUrl, getUrl. rewrite Hswept, Hget. cbn [fst snd].
    split; [reflexivity | by left].
Qed.

(** X11. Sweeping again, at the same time or at an earlier one, removes
    nothing: the second sweep returns 0 and leaves the registry as the
    first one left it. *)
Theorem sweep_again now now' (storage : gmap string UrlEntry) :
  now' <= now ->
  cleanupExpiredUrls now' (cleanupExpiredUrls now storage).2
  = (0%nat, (cleanupExpiredUrls now storage).2).
Proof.
  intros Hle.
  assert (forall k e, (cleanupExpiredUrls now storage).2 !! k = Some e ->
                      ~ expiresAt e < now') as Hkept.
  { intros k e. rewrite cleanupExpiredUrls_lookup.
    destruct (storage !! k) as [e0|]; [| discriminate].
    case_decide; [discriminate |]. intros [= <-]. lia. }
  rewrite (surjective_pairing (cleanupExpiredUrls now' _)). f_equal.
  - rewrite expired_count. apply map_size_empty_iff.
    apply map_eq. intros k. rewrite lookup_empty.
    apply map_lookup_filter_None. right. intros e He. by apply (Hkept k).
  - apply map_eq. intros k. rewrite cleanupExpiredUrls_lookup.
    destruct ((cleanupExpiredUrls now storage).2 !! k) as [e|] eqn:He; [| reflexivity].
    rewrite decide_False; [reflexivity | by apply (Hkept k)].
Qed.

End Composition.

(* ===================================================================== *)
(** ** The click built by the redirect handler *)
(* ===================================================================== *)

Section Enrichment.

Context `{Platform}.

Import UrlController Notions.

Lemma afterLastColon_split s : forall t,
  JS.afterLastColon s = Some t ->
  JS.afterLastColon t = None
  /\ exists p, s = (p ++ String ":" t)%string.
Proof.
  induction s as [|c s IH]; intros t Hs; simpl in Hs; [discriminate |].
  destruct (JS.isLineTerminator c); [discriminate |].
  destruct (JS.afterLastColon s) as [u|] eqn:Hu.
  - injection Hs as <-. destruct (IH u eq_refl) as [Hnone [p ->]].
    split; [exact Hnone |]. by exists (String c p).
  - destruct (Ascii.eqb_spec c ":") as [-> | Hne]; [| discriminate].
    injection Hs as <-. split; [exact Hu |]. by exists EmptyString.
Qed.

Lemma afterLastColon_none s :
  JS.afterLastColon s = None ->
  Forall (fun c => JS.isLineTerminator c = false) (list_ascii_of_string s) ->
  ~ occurs ":" s.
Proof.
  unfold occurs. induction s as [|c s IH]; simpl; intros Hnone Hall.
  - apply not_elem_of_nil.
  - inversion Hall as [|? ? Hc Hrest]; subst. rewrite Hc in Hnone.
    destruct (JS.afterLastColon s) as [u|]; [discriminate |].
    destruct (Ascii.eqb_spec c ":") as [-> | Hne]; [discriminate |].
    rewrite elem_of_cons. intros [Heq | Hin]; [congruence | by apply IH].
Qed.

Lemma afterLastColon_no_colon s :
  ~ occurs ":" s -> JS.afterLastColon s = None.
Proof.
  unfold occurs. induction s as [|c s IH]; simpl; intros Hno; [reflexivity |].
  rewrite elem_of_cons in Hno.
  destruct (JS.isLineTerminator c); [reflexivity |].
  rewrite IH by tauto.
  destruct (Ascii.eqb_spec c ":") as [-> | Hne]; [tauto | reflexivity].
Qed.

Lemma append_cons_assoc (p : string) c t :
  (p ++ String c t)%string = ((p ++ String c EmptyString) ++ t)%string.
Proof.
  induction p as [|d p IH]; [reflexivity |].
  change (String d (p ++ String c t) = String d ((p ++ String c EmptyString) ++ t))%string.
  by rewrite IH.
Qed.

Lemma Forall_suffix (P : ascii -> Prop) (p t : string) :
  Forall P (list_ascii_of_string (p ++ t)) -> Forall P (list_ascii_of_string t).
Proof. rewrite list_ascii_append, Forall_app. tauto. Qed.

(** X12. Stripping an address through its last colon (the replacement
    of [/^.*:/] by nothing) returns an end part of the address; it
    returns the address itself when the address has no colon; stripping
    twice is stripping once; and, for an address with no line break,
    the result holds no colon. *)
Theorem stripThroughLastColon_shape (s : string) :
  (exists p, s = (p ++ JS.stripThroughLastColon s)%string)
  /\ JS.stripThroughLastColon (JS.stripThroughLastColon s) = JS.stripThroughLastColon s
  /\ (~ occurs ":" s -> JS.stripThroughLastColon s = s)
  /\ (Forall (fun c => JS.isLineTerminator c = false) (list_ascii_of_string s) ->
      ~ occurs ":" (JS.stripThroughLastColon s)).
Proof.
  unfold JS.stripThroughLastColon.
  destruct (JS.afterLastColon s) as [t|] eqn:Hs.
  - destruct (afterLastColon_split s t Hs) as [Hnone [p ->]].
    split; [| split; [| split]].
    + exists (p ++ ":")%string. apply append_cons_assoc.
    + by rewrite Hnone.
    + intros Hno. apply afterLastColon_no_colon in Hno. congruence.
    + intros Hall. apply afterLastColon_none; [exact Hnone |].
      apply Forall_suffix in Hall. by inversion Hall.
  - split; [by exists EmptyString |]. split; [by rewrite Hs |]. split; [done |].
    by apply afterLastColon_none.
Qed.

Lemma orElse_nonempty o d : d <> EmptyString -> JS.orElse o d <> EmptyString.
Proof. by destruct o as [[|c s]|]. Qed.

Lemma orElse_falsy o d : JS.truthy o = false -> JS.orElse o d = d.
Proof. by destruct o as [[|c s]|]. Qed.

Lemma append_nonempty (a b : string) : a <> EmptyString -> (a ++ b)%string <> EmptyString.
Proof. by destruct a. Qed.

(** X13. The click the redirect handler records never has an empty
    referrer or an empty location: a request without a (non-empty)
    Referer header is recorded as [Direct], an address the geo lookup
    does not know is recorded as [Unknown]; the user-agent label has no
    white space at either end; the timestamp is the handler's clock
    reading; and the stored address is the request address stripped
    through its last colon. *)
Theorem clickOf_enriched (now' : Z) (req : RedirectRequest) :
  timestamp (clickOf now' req) = now'
  /\ referrer (clickOf now' req) <> EmptyString
  /\ (JS.truthy (header_Referer req) = false -> referrer (clickOf now' req) = "Direct")
  /\ location (clickOf now' req) <> EmptyString
  /\ (geoip_lookup (JS.orElse (req_ip req) (JS.orElse (remoteAddress req) "Unknown"))
      = None -> location (clickOf now' req) = "Unknown")
  /\ tidy (userAgent (clickOf now' req))
  /\ ip (clickOf now' req)
     = JS.stripThroughLastColon
         (JS.orElse (req_ip req) (JS.orElse (remoteAddress req) "Unknown")).
Proof.
  unfold clickOf. cbn [timestamp referrer location userAgent ip].
  split; [reflexivity |].
  split; [by apply orElse_nonempty |].
  split; [apply orElse_falsy |].
  split.
  - destruct (geoip_lookup _) as [geo|]; [| discriminate].
    apply append_nonempty. by apply orElse_nonempty.
  - split; [by intros -> |]. split; [apply trim_tidy | reflexivity].
Qed.

End Enrichment.

(* ===================================================================== *)
(** ** The client-side validators against the server-side ones *)
(* ===================================================================== *)

Section ClientValidators.

Import ValidationService UrlController Notions.

Lemma blank_test (s : string) :
  (negb (JS.truthy (Some s)) || String.eqb (JS.trim s) EmptyString)
  = String.eqb (JS.trim s) EmptyString.
Proof. destruct s as [|c s]; reflexivity. Qed.

Lemma client_shortcode_server (shortcode : string) :
  isValid (Helpers.validateShortcode shortcode) = true ->
  JS.trim shortcode <> EmptyString ->
  isValid (validateShortcode (Some (JS.trim shortcode))) = true.
Proof.
  unfold Helpers.validateShortcode. rewrite blank_test. intros Hvalid Hfilled.
  destruct (String.eqb_spec (JS.trim shortcode) EmptyString) as [Hblank | _];
    [by destruct Hfilled |].
  destruct (JS.trim shortcode) as [|c t]; [by destruct Hfilled |].
  unfold validateShortcode. cbv beta iota zeta in *.
  destruct (_ || _); [discriminate Hvalid |].
  destruct (negb _); [discriminate Hvalid |].
  by destruct (JS.includes _ _).
Qed.

(** X14. The client-side shortcode validator passes a field exactly when
    the field is blank or its trimmed content passes the server-side
    shortcode validator. *)
Theorem client_shortcode_agrees (shortcode : string) :
  isValid (Helpers.validateShortcode shortcode) = true
  <-> JS.trim shortcode = EmptyString
      \/ isValid (validateShortcode (Some (JS.trim shortcode))) = true.
Proof.
  unfold Helpers.validateShortcode. rewrite blank_test.
  destruct (String.eqb_spec (JS.trim shortcode) EmptyString) as [Hblank | Hfilled].
  - split; [by left | reflexivity].
  - destruct (JS.trim shortcode) as [|c t] eqn:Htrim; [by destruct Hfilled |].
    unfold validateShortcode. cbv beta iota zeta.
    destruct ((Z.of_nat (String.length (String c t)) <? 4)
              || (Z.of_nat (String.length (String c t)) >? 10)).
    { split; [discriminate | intros [Habs | Habs]; discriminate Habs]. }
    destruct (negb (JS.testClassPlus JS.isAlnum (String c t))).
    { split; [discriminate | intros [Habs | Habs]; discriminate Habs]. }
    destruct (JS.includes reservedWords (JS.toLowerCase (String c t))).
    { split; [discriminate | intros [Habs | Habs]; discriminate Habs]. }
    split; [by right | reflexivity].
Qed.

Lemma validateValidity_ofZ z :
  1 <= z <= 43200 ->
  validateValidity (JS.ofZ z)
  = {| isValid := true; error := None; normalizedUrl := None;
       value := Some (JS.ofZ z) |}.
Proof.
  intros Hz. unfold validateValidity, JS.ofZ.
  cbn [JS.Number_isInteger JS.ltNum JS.gtNum inject_Z Qnum Qden].
  unfold JS.isIntegral. cbn [inject_Z Qnum Qden].
  rewrite Z.rem_1_r. cbn [Z.eqb negb].
  destruct (Z.ltb_spec z (1 * 1)) as [Hlo | _]; [lia |].
  destruct (Z.ltb_spec (43200 * 1) z) as [Hhi | _]; [lia |].
  reflexivity.
Qed.

Lemma client_validity_server (validity : string) :
  isValid (Helpers.validateValidity validity) = true ->
  isValid (validateValidity
             (default JS.Absent (value (Helpers.validateValidity validity)))) = true.
Proof.
  unfold Helpers.validateValidity.
  destruct (_ || _); [reflexivity |].
  destruct (Helpers.parseInt10 (JS.trim validity)) as [n|]; [| discriminate].
  destruct (Z.ltb_spec n 1) as [Hlo | Hlo]; [discriminate |].
  destruct (Z.gtb_spec n 43200) as [Hhi | Hhi]; [discriminate |].
  intros _. cbn [value default orb]. unfold id.
  by rewrite validateValidity_ofZ by lia.
Qed.

(** X15. Whatever the client-side validity validator lets through is a
    whole number of minutes from 1 to 43200 (30 for a blank field), and
    the server-side validator accepts that number unchanged. *)
Theorem client_validity_accepted (validity : string) :
  isValid (Helpers.validateValidity validity) = true ->
  exists z,
    1 <= z <= 43200
    /\ value (Helpers.validateValidity validity) = Some (JS.ofZ z)
    /\ validateValidity (JS.ofZ z) = Helpers.validateValidity validity
    /\ (JS.trim validity = EmptyString -> z = 30).
Proof.
  unfold Helpers.validateValidity. rewrite blank_test.
  destruct (String.eqb_spec (JS.trim validity) EmptyString) as [Hblank | Hfilled].
  - intros _. exists 30. split; [lia |]. split; [reflexivity |].
    split; [by apply validateValidity_ofZ | done].
  - destruct (Helpers.parseInt10 (JS.trim validity)) as [n|]; [| discriminate].
    destruct (Z.ltb_spec n 1) as [Hlo | Hlo]; [discriminate |].
    destruct (Z.gtb_spec n 43200) as [Hhi | Hhi]; [discriminate |].
    intros _. exists n. split; [lia |]. split; [reflexivity |].
    split; [apply validateValidity_ofZ; lia | done].
Qed.

End ClientValidators.

Section ClientToServer.

Context `{Platform}.

Import ValidationService UrlService UrlController Notions.

Ltac split_ifs :=
  repeat (match goal with
          | |- context [if ?b then _ else _] => destruct b
          | |- context [match ?o with Some _ => _ | None => _ end] => destruct o
          end).

Lemma client_validateUrl_result url :
  isValid (Helpers.validateUrl url) = true
  \/ exists msg, Helpers.validateUrl url = invalid msg.
Proof. unfold Helpers.validateUrl. split_ifs; eauto. Qed.

Lemma client_validateShortcode_result shortcode :
  isValid (Helpers.validateShortcode shortcode) = true
  \/ exists msg, Helpers.validateShortcode shortcode = invalid msg.
Proof. unfold Helpers.validateShortcode. split_ifs; eauto. Qed.

Lemma client_validateValidity_result validity :
  isValid (Helpers.validateValidity validity) = true
  \/ exists msg, Helpers.validateValidity validity = invalid msg.
Proof. unfold Helpers.validateValidity. split_ifs; eauto. Qed.

Lemma errorIf_none r :
  (isValid r = true \/ exists msg, r = invalid msg) ->
  Helpers.errorIf r = None -> isValid r = true.
Proof.
  intros [Hvalid | [msg ->]]; [done |]. unfold Helpers.errorIf. simpl. discriminate.
Qed.

Lemma entry_valid_parts entry :
  Helpers.entry_isValid (Helpers.validateUrlEntry entry) = true ->
  isValid (Helpers.validateUrl (Helpers.entry_url entry)) = true
  /\ isValid (Helpers.validateShortcode (Helpers.entry_shortcode entry)) = true
  /\ isValid (Helpers.validateValidity (Helpers.entry_validity entry)) = true.
Proof.
  unfold Helpers.validateUrlEntry. cbn [Helpers.entry_isValid].
  unfold Helpers.noErrors. cbn [Helpers.errors_url Helpers.errors_shortcode Helpers.errors_validity].
  destruct (Helpers.errorIf (Helpers.validateUrl _)) eqn:Hu; [discriminate |].
  destruct (Helpers.errorIf (Helpers.validateShortcode _)) eqn:Hs; [discriminate |].
  destruct (Helpers.errorIf (Helpers.validateValidity _)) eqn:Hv; [discriminate |].
  intros _. split; [| split].
  - apply errorIf_none; [apply client_validateUrl_result | exact Hu].
  - apply errorIf_none; [apply client_validateShortcode_result | exact Hs].
  - apply errorIf_none; [apply client_validateValidity_result | exact Hv].
Qed.

Lemma client_url_accepted url :
  (forall s urlObj, newURL s = Some urlObj -> Helpers.urlPattern s = true ->
                    protocol urlObj = "http:" \/ protocol urlObj = "https:") ->
  isValid (Helpers.validateUrl url) = true ->
  isValid (validateUrl (Some (JS.trim url))) = true.
Proof.
  intros Hparser. unfold Helpers.validateUrl. rewrite blank_test.
  destruct (String.eqb_spec (JS.trim url) EmptyString) as [Hblank | Hfilled];
    [discriminate |].
  destruct (JS.hasChar " " (JS.trim url)) eqn:Hspace; [discriminate |].
  destruct (Helpers.urlPattern (JS.trim url)) eqn:Hpattern; cbn [negb]; [| discriminate].
  destruct (newURL (JS.trim url)) as [urlObj|] eqn:Hparse; [| discriminate].
  destruct (negb (JS.testClassPlus isHostChar (hostname urlObj))
            || negb (JS.hasChar "." (hostname urlObj))) eqn:Hhost; [discriminate |].
  destruct (JS.startsWithChar "-" (hostname urlObj)
            || JS.endsWithChar "-" (hostname urlObj)
            || JS.startsWithChar "." (hostname urlObj)
            || JS.endsWithChar "." (hostname urlObj)) eqn:Hends; [discriminate |].
  intros _. rewrite validateUrl_decision.
  assert (forall A (x y : A), match JS.trim url with EmptyString => x | _ => y end = y)
    as -> by (intros; by destruct (JS.trim url)).
  rewrite trim_idempotent, Hspace, Hparse.
  assert (JS.includes ["http:"; "https:"] (protocol urlObj) = true) as ->.
  { apply includes_true.
    destruct (Hparser _ _ Hparse Hpattern) as [-> | ->]; set_solver. }
  assert (JS.truthy (Some (hostname urlObj)) = true) as ->.
  { apply orb_false_iff in Hhost as [Hclass _]. apply negb_false_iff in Hclass.
    by destruct (hostname urlObj). }
  cbn [negb]. by rewrite Hhost, Hends.
Qed.

Lemma createShortUrl_valid now now' body st :
  isValid (validateUrl (body_url body)) = true ->
  isValid (validateValidity (body_validity body)) = true ->
  (JS.truthy (body_shortcode body) = true ->
   isValid (validateShortcode (body_shortcode body)) = true) ->
  createShortUrl now now' body st
  = if JS.truthy (body_shortcode body)
       && shortcodeExists (JS.orElse (body_shortcode body) EmptyString) (urlStorage st)
    then Some (conflict, st)
    else storeAndReply now now' (JS.orElse (body_url body) EmptyString)
           (value (validateValidity (body_validity body))) (body_shortcode body) st.
Proof.
  intros Hurl Hval Hsc. unfold createShortUrl.
  rewrite (validateUrl_truthy _ Hurl), Hurl, Hval. cbn [negb].
  destruct (JS.truthy (body_shortcode body)); [| reflexivity].
  rewrite (Hsc eq_refl). cbn [negb andb]. reflexivity.
Qed.

(** X16. Provided the URL parser reports [http:] or [https:] as the
    protocol of every url that starts with [http://] or [https://]
    (whatever the case of these letters), a form entry that the
    client-side [validateUrlEntry] accepts passes the three server-side
    validators in the form it is posted in, so the create handler never
    answers it with a 400: its answer is 201 or 409. *)
Theorem form_entry_reaches_registry (entry : Helpers.FormEntry) :
  (forall s urlObj, newURL s = Some urlObj -> Helpers.urlPattern s = true ->
                    protocol urlObj = "http:" \/ protocol urlObj = "https:") ->
  Helpers.entry_isValid (Helpers.validateUrlEntry entry) = true ->
  isValid (validateUrl
             (body_url (Helpers.validatedData (Helpers.validateUrlEntry entry)))) = true
  /\ isValid (validateValidity
                (body_validity (Helpers.validatedData (Helpers.validateUrlEntry entry))))
     = true
  /\ (forall code,
        body_shortcode (Helpers.validatedData (Helpers.validateUrlEntry entry))
        = Some code ->
        isValid (validateShortcode (Some code)) = true)
  /\ (forall now now' st resp st',
        createShortUrl now now'
          (Helpers.validatedData (Helpers.validateUrlEntry entry)) st
        = Some (resp, st') ->
        statusOf resp = 201 \/ statusOf resp = 409).
Proof.
  intros Hparser Hentry.
  destruct (entry_valid_parts entry Hentry) as (Hu & Hs & Hv).
  set (data := Helpers.validatedData (Helpers.validateUrlEntry entry)).
  assert (isValid (validateUrl (body_url data)) = true) as Hurl.
  { by apply client_url_accepted. }
  assert (isValid (validateValidity (body_validity data)) = true) as Hval.
  { subst data. cbn [Helpers.validateUrlEntry Helpers.validatedData body_validity].
    by apply client_validity_server. }
  assert (forall code, body_shortcode data = Some code ->
                       isValid (validateShortcode (Some code)) = true) as Hcode.
  { intros code. subst data.
    cbn [Helpers.validateUrlEntry Helpers.validatedData body_shortcode].
    destruct (JS.truthy (Some (JS.trim (Helpers.entry_shortcode entry)))) eqn:Ht;
      [| discriminate].
    intros [= <-]. apply client_shortcode_server; [exact Hs |].
    intros Hblank. rewrite Hblank in Ht. discriminate Ht. }
  split; [exact Hurl |]. split; [exact Hval |]. split; [exact Hcode |].
  intros now now' st resp st' Hrun.
  rewrite createShortUrl_valid in Hrun; [| exact Hurl | exact Hval |].
  - destruct (_ && _); [injection Hrun as <- _; by right |].
    apply storeAndReply_inv in Hrun as (code & -> & _). by left.
  - intros Htruthy. destruct (body_shortcode data) as [code|] eqn:Hsc; [| discriminate].
    by apply Hcode.
Qed.

Lemma validateFrom_length (entries : list Helpers.FormEntry) : forall i shortcodes,
  length (Helpers.validateFrom i shortcodes entries) = length entries.
Proof.
  induction entries as [|entry rest IH]; intros i shortcodes; [reflexivity |].
  cbn [Helpers.validateFrom].
  destruct (body_shortcode _) as [sc|]; [case_decide |]; cbn [length]; by rewrite IH.
Qed.

Lemma validateFrom_lookup (entries : list Helpers.FormEntry) : forall i shortcodes j r,
  Helpers.validateFrom i shortcodes entries !! j = Some r ->
  Helpers.index r = (i + j)%nat
  /\ exists entry,
       entries !! j = Some entry
       /\ Helpers.validatedData (Helpers.validation r)
          = Helpers.validatedData (Helpers.validateUrlEntry entry)
       /\ (Helpers.entry_isValid (Helpers.validation r) = true ->
           Helpers.entry_isValid (Helpers.validateUrlEntry entry) = true).
Proof.
  induction entries as [|entry rest IH]; intros i shortcodes j r; [by destruct j |].
  cbn [Helpers.validateFrom].
  destruct (body_shortcode _) as [sc|]; [case_decide |];
    (destruct j as [|j]; cbn [lookup list_lookup];
     [ intros [= <-]; cbn [Helpers.index Helpers.validation];
       split; [lia |]; exists entry; by repeat split
     | intros Hr; destruct (IH _ _ _ _ Hr) as (Hidx & e & He & Hd & Hv);
       split; [lia |]; exists e; by repeat split ]).
Qed.

Lemma validateFrom_distinct (entries : list Helpers.FormEntry) : forall i shortcodes,
  (forall j r a,
      Helpers.validateFrom i shortcodes entries !! j = Some r ->
      Helpers.entry_isValid (Helpers.validation r) = true ->
      body_shortcode (Helpers.validatedData (Helpers.validation r)) = Some a ->
      JS.toLowerCase a ∉ shortcodes)
  /\ (forall j k r r' a b,
        (j < k)%nat ->
        Helpers.validateFrom i shortcodes entries !! j = Some r ->
        Helpers.validateFrom i shortcodes entries !! k = Some r' ->
        Helpers.entry_isValid (Helpers.validation r) = true ->
        Helpers.entry_isValid (Helpers.validation r') = true ->
        body_shortcode (Helpers.validatedData (Helpers.validation r)) = Some a ->
        body_shortcode (Helpers.validatedData (Helpers.validation r')) = Some b ->
        JS.toLowerCase a <> JS.toLowerCase b).
Proof.
  induction entries as [|entry rest IH]; intros i shortcodes.
  { split; intros; by destruct j. }
  cbn [Helpers.validateFrom].
  destruct (body_shortcode (Helpers.validatedData (Helpers.validateUrlEntry entry)))
    as [sc|] eqn:Hsc.
  - case_decide as Hseen.
    + destruct (IH (S i) shortcodes) as [IH1 IH2]. split.
      * intros [|j] r a Hr Hvalid Ha; cbn [lookup list_lookup] in Hr.
        -- injection Hr as <-. discriminate Hvalid.
        -- by eapply IH1.
      * intros [|j] [|k] r r' a b Hlt Hr Hr' Hv Hv' Ha Hb;
          cbn [lookup list_lookup] in Hr, Hr'; try lia.
        -- injection Hr as <-. discriminate Hv.
        -- eapply (IH2 j k); eauto. lia.
    + destruct (IH (S i) ({[JS.toLowerCase sc]} ∪ shortcodes)) as [IH1 IH2]. split.
      * intros [|j] r a Hr Hvalid Ha; cbn [lookup list_lookup] in Hr.
        -- injection Hr as <-. cbn [Helpers.validation] in Ha.
           rewrite Hsc in Ha. by injection Ha as <-.
        -- pose proof (IH1 j r a Hr Hvalid Ha) as Hnot.
           rewrite elem_of_union in Hnot. tauto.
      * intros [|j] [|k] r r' a b Hlt Hr Hr' Hv Hv' Ha Hb;
          cbn [lookup list_lookup] in Hr, Hr'; try lia.
        -- injection Hr as <-. cbn [Helpers.validation] in Ha.
           rewrite Hsc in Ha. injection Ha as <-.
           pose proof (IH1 k r' b Hr' Hv' Hb) as Hnot.
           rewrite elem_of_union, elem_of_singleton in Hnot.
           intros Heq. apply Hnot. by left.
        -- eapply (IH2 j k); eauto. lia.
  - destruct (IH (S i) shortcodes) as [IH1 IH2]. split.
    + intros [|j] r a Hr Hvalid Ha; cbn [lookup list_lookup] in Hr.
      * injection Hr as <-. cbn [Helpers.validation] in Ha. congruence.
      * by eapply IH1.
    + intros [|j] [|k] r r' a b Hlt Hr Hr' Hv Hv' Ha Hb;
        cbn [lookup list_lookup] in Hr, Hr'; try lia.
      * injection Hr as <-. cbn [Helpers.validation] in Ha. congruence.
      * eapply (IH2 j k); eauto. lia.
Qed.

(** X17. [validateMultipleEntries] returns one result per entry, in
    order, each carrying its position as [index] and the data
    [validateUrlEntry] prepared for that entry; a result is valid only
    if the entry is valid on its own; and no two valid results carry the
    same shortcode, even up to the case of the letters. *)
Theorem validateMultipleEntries_checks (entries : list Helpers.FormEntry) :
  length (Helpers.validateMultipleEntries entries) = length entries
  /\ (forall j r,
        Helpers.validateMultipleEntries entries !! j = Some r ->
        Helpers.index r = j
        /\ exists entry,
             entries !! j = Some entry
             /\ Helpers.validatedData (Helpers.validation r)
                = Helpers.validatedData (Helpers.validateUrlEntry entry)
             /\ (Helpers.entry_isValid (Helpers.validation r) = true ->
                 Helpers.entry_isValid (Helpers.validateUrlEntry entry) = true))
  /\ (forall j k r r' a b,
        j <> k ->
        Helpers.validateMultipleEntries entries !! j = Some r ->
        Helpers.validateMultipleEntries entries !! k = Some r' ->
        Helpers.entry_isValid (Helpers.validation r) = true ->
        Helpers.entry_isValid (Helpers.validation r') = true ->
        body_shortcode (Helpers.validatedData (Helpers.validation r)) = Some a ->
        body_shortcode (Helpers.validatedData (Helpers.validation r')) = Some b ->
        JS.toLowerCase a <> JS.toLowerCase b).
Proof.
  unfold Helpers.validateMultipleEntries. split; [apply validateFrom_length |]. split.
  - intros j r Hr. by destruct (validateFrom_lookup entries 0 ∅ j r Hr).
  - intros j k r r' a b Hne Hr Hr' Hv Hv' Ha Hb.
    destruct (validateFrom_distinct entries 0 ∅) as [_ Hdistinct].
    destruct (Nat.lt_total j k) as [Hlt | [Heq | Hgt]]; [| by destruct Hne |].
    + by eapply (Hdistinct j k).
    + intros Heq. symmetry in Heq. revert Heq. by eapply (Hdistinct k j).
Qed.

End ClientToServer.

(* ===================================================================== *)
(** ** The display helpers of the client *)
(* ===================================================================== *)

Section Display.

Context `{Platform}.

Import UrlService UrlController Notions.

Lemma substring_prefix (n : nat) : forall s : string,
  (n <= String.length s)%nat ->
  String.length (String.substring 0 n s) = n
  /\ exists rest, s = (String.substring 0 n s ++ rest)%string.
Proof.
  induction n as [|n IH]; intros s Hlen.
  - destruct s; (split; [reflexivity | eexists; reflexivity]).
  - destruct s as [|c s]; [simpl in Hlen; lia |].
    destruct (IH s) as [Hl [rest Hrest]]; [simpl in Hlen; lia |].
    change (String.substring 0 (S n) (String c s))
      with (String c (String.substring 0 n s)).
    split; [simpl; by rewrite Hl |].
    exists rest.
    change (String c s = String c (String.substring 0 n s ++ rest)%string).
    by rewrite <- Hrest.
Qed.

(** X18. [truncateUrl] returns a url that fits the limit as it is.  A
    longer (non-empty) url is cut to its first [maxLength] characters
    (none for a negative limit) followed by three dots; so the result is
    never more than three characters over the limit. *)
Theorem truncateUrl_bounded (url : string) (maxLength : Z) :
  (Z.of_nat (String.length url) <= maxLength -> Helpers.truncateUrl url maxLength = url)
  /\ (url <> EmptyString -> maxLength < Z.of_nat (String.length url) ->
      exists kept dropped,
        url = (kept ++ dropped)%string
        /\ String.length kept = Z.to_nat maxLength
        /\ Helpers.truncateUrl url maxLength = (kept ++ "...")%string)
  /\ Z.of_nat (String.length (Helpers.truncateUrl url maxLength)) <= Z.max 0 maxLength + 3.
Proof.
  unfold Helpers.truncateUrl.
  destruct (Z.leb_spec (Z.of_nat (String.length url)) maxLength) as [Hfits | Hlong].
  - rewrite orb_true_r. split; [done |]. split; [lia | lia].
  - rewrite orb_false_r.
    destruct (substring_prefix (Z.to_nat maxLength) url) as [Hl [rest Hrest]]; [lia |].
    destruct url as [|c s].
    + cbn [JS.truthy negb]. split; [done |]. split; [done | simpl; lia].
    + cbn [JS.truthy negb]. split; [lia |]. split.
      * intros _ _. by exists (String.substring 0 (Z.to_nat maxLength) (String c s)), rest.
      * rewrite length_append, Hl. simpl. lia.
Qed.

Lemma getExpiryStatus_future d now now' :
  now < d ->
  Helpers.getExpiryStatus (Some d) now now'
  = if (d - now') / (1000 * 60) <? 60 then
      {| Helpers.status :=
           ("Expires in " ++ pretty ((d - now') / (1000 * 60)) ++ " minutes")%string;
         Helpers.color := "warning" |}
    else if (d - now') / (1000 * 60) / 60 <? 24 then
      {| Helpers.status :=
           ("Expires in " ++ pretty ((d - now') / (1000 * 60) / 60) ++ " hours")%string;
         Helpers.color := "info" |}
    else
      {| Helpers.status :=
           ("Expires in " ++ pretty ((d - now') / (1000 * 60) / 60 / 24) ++ " days")%string;
         Helpers.color := "success" |}.
Proof.
  intros Hfuture. unfold Helpers.getExpiryStatus, Helpers.isFuture.
  destruct (Z.gtb_spec d now) as [_ | Hle]; [reflexivity | lia].
Qed.

(** X19. For an expiry still ahead at both clock readings,
    [getExpiryStatus] reports the time left in whole minutes when under
    an hour, in whole hours when under a day, and in whole days
    otherwise, each rounded down: the number shown is 0..59 minutes,
    1..23 hours or at least 1 day. *)
Theorem getExpiryStatus_units (d now now' : Z) :
  now <= now' -> now' < d ->
  exists n,
    (Helpers.getExpiryStatus (Some d) now now'
     = {| Helpers.status := ("Expires in " ++ pretty n ++ " minutes")%string;
          Helpers.color := "warning" |}
     /\ 0 <= n < 60 /\ n * 60000 <= d - now' < (n + 1) * 60000)
    \/ (Helpers.getExpiryStatus (Some d) now now'
        = {| Helpers.status := ("Expires in " ++ pretty n ++ " hours")%string;
             Helpers.color := "info" |}
        /\ 1 <= n < 24 /\ n * 3600000 <= d - now' < (n + 1) * 3600000)
    \/ (Helpers.getExpiryStatus (Some d) now now'
        = {| Helpers.status := ("Expires in " ++ pretty n ++ " days")%string;
             Helpers.color := "success" |}
        /\ 1 <= n /\ n * 86400000 <= d - now' < (n + 1) * 86400000).
Proof.
  intros Hclock Hahead. rewrite getExpiryStatus_future by lia.
  change (1000 * 60) with 60000.
  set (m := (d - now') / 60000).
  pose proof (Z.div_mod (d - now') 60000 ltac:(lia)) as Hm.
  pose proof (Z.mod_pos_bound (d - now') 60000 ltac:(lia)) as Hmb.
  fold m in Hm.
  set (h := m / 60).
  pose proof (Z.div_mod m 60 ltac:(lia)) as Hh.
  pose proof (Z.mod_pos_bound m 60 ltac:(lia)) as Hhb.
  fold h in Hh.
  set (dd := h / 24).
  pose proof (Z.div_mod h 24 ltac:(lia)) as Hd.
  pose proof (Z.mod_pos_bound h 24 ltac:(lia)) as Hdb.
  fold dd in Hd.
  destruct (Z.ltb_spec m 60) as [Hmin | Hmin].
  - exists m. left. split; [reflexivity | lia].
  - destruct (Z.ltb_spec h 24) as [Hhour | Hhour].
    + exists h. right; left. split; [reflexivity | lia].
    + exists dd. right; right. split; [reflexivity | lia].
Qed.

(** X20. Client and server read expiry almost alike.  At one and the
    same instant, the client helper shows a link as [Expired] exactly
    when the redirect handler answers 410 Gone for it, or the instant is
    the very millisecond of the expiry, at which the server still
    redirects; a date the client cannot read is shown as [Expired]. *)
Theorem expiry_shown_as_served now now' t' req (storage : gmap string UrlEntry) urlEntry :
  storage !! params_shortcode req = Some urlEntry ->
  (Helpers.getExpiryStatus (Some (expiresAt urlEntry)) now t'
   = {| Helpers.status := "Expired"; Helpers.color := "error" |}
   <-> (redirectToUrl now now' req storage).1 = gone \/ now = expiresAt urlEntry)
  /\ (now = expiresAt urlEntry ->
      (redirectToUrl now now' req storage).1 = Redirect 302 (originalUrl urlEntry))
  /\ Helpers.getExpiryStatus None now t'
     = {| Helpers.status := "Expired"; Helpers.color := "error" |}.
Proof.
  intros Hget. split; [| split; [| reflexivity]].
  - destruct (Z.lt_ge_cases now (expiresAt urlEntry)) as [Hfuture | Hpast].
    + rewrite getExpiryStatus_future by exact Hfuture.
      rewrite (redirectToUrl_live now now' req storage urlEntry Hget) by lia.
      cbn [fst]. split.
      * destruct (_ <? 60); [discriminate |]. destruct (_ <? 24); discriminate.
      * intros [Habs | Habs]; [discriminate Habs | lia].
    + unfold Helpers.getExpiryStatus, Helpers.isFuture.
      destruct (Z.gtb_spec (expiresAt urlEntry) now) as [Habs | _]; [lia |].
      cbn [negb]. split; [| reflexivity]. intros _.
      destruct (Z.eq_dec now (expiresAt urlEntry)) as [Heq | Hne]; [by right |].
      left. by rewrite (redirectToUrl_expired now now' req storage urlEntry Hget) by lia.
  - intros Heq.
    by rewrite (redirectToUrl_live now now' req storage urlEntry Hget) by lia.
Qed.

(** X24. For a date not in the future, [getTimeAgo] reports the time
    elapsed in whole seconds when under a minute, in whole minutes when
    under an hour, in whole hours when under a day, and in whole days
    otherwise, each rounded down: the number shown is 0..59 seconds,
    1..59 minutes, 1..23 hours or at least 1 day.  A date it cannot read
    comes out as [NaN days ago]. *)
Theorem getTimeAgo_units (d now : Z) :
  d <= now ->
  (exists n,
      (Helpers.getTimeAgo (Some d) now = (pretty n ++ " seconds ago")%string
       /\ 0 <= n < 60 /\ n * 1000 <= now - d < (n + 1) * 1000)
      \/ (Helpers.getTimeAgo (Some d) now = (pretty n ++ " minutes ago")%string
          /\ 1 <= n < 60 /\ n * 60000 <= now - d < (n + 1) * 60000)
      \/ (Helpers.getTimeAgo (Some d) now = (pretty n ++ " hours ago")%string
          /\ 1 <= n < 24 /\ n * 3600000 <= now - d < (n + 1) * 3600000)
      \/ (Helpers.getTimeAgo (Some d) now = (pretty n ++ " days ago")%string
          /\ 1 <= n /\ n * 86400000 <= now - d < (n + 1) * 86400000))
  /\ Helpers.getTimeAgo None now = "NaN days ago".
Proof.
  intros Hpast. split; [| reflexivity].
  unfold Helpers.getTimeAgo. cbv zeta.
  set (sec := (now - d) / 1000).
  pose proof (Z.div_mod (now - d) 1000 ltac:(lia)) as Hs.
  pose proof (Z.mod_pos_bound (now - d) 1000 ltac:(lia)) as Hsb.
  fold sec in Hs.
  set (m := sec / 60).
  pose proof (Z.div_mod sec 60 ltac:(lia)) as Hm.
  pose proof (Z.mod_pos_bound sec 60 ltac:(lia)) as Hmb.
  fold m in Hm.
  set (h := m / 60).
  pose proof (Z.div_mod m 60 ltac:(lia)) as Hh.
  pose proof (Z.mod_pos_bound m 60 ltac:(lia)) as Hhb.
  fold h in Hh.
  set (dd := h / 24).
  pose proof (Z.div_mod h 24 ltac:(lia)) as Hd.
  pose proof (Z.mod_pos_bound h 24 ltac:(lia)) as Hdb.
  fold dd in Hd.
  destruct (Z.ltb_spec sec 60) as [Hsec | Hsec].
  { exists sec. left. split; [reflexivity | lia]. }
  destruct (Z.ltb_spec m 60) as [Hmin | Hmin].
  { exists m. right; left. split; [reflexivity | lia]. }
  destruct (Z.ltb_spec h 24) as [Hhour | Hhour].
  { exists h. right; right; left. split; [reflexivity | lia]. }
  exists dd. right; right; right. split; [reflexivity | lia].
Qed.

End Display.

(* ===================================================================== *)
(** ** Creations in sequence, and what is listed afterwards *)
(* ===================================================================== *)

Section Batches.

Context `{Platform}.

Import ValidationService UrlService UrlController Notions.

(** X21. After a sequence of create requests that all get an answer,
    there is one answer per request and the registry has grown by
    exactly the number of 201 answers: a request answered 400 or 409
    adds nothing, a request answered 201 adds one record. *)
Theorem createAll_counted (reqs : list (Z * Z * CreateBody)) :
  forall st resps st',
    createAll reqs st = Some (resps, st') ->
    length resps = length reqs
    /\ size (urlStorage st') = (size (urlStorage st) + creations resps)%nat.
Proof.
  induction reqs as [|[[now now'] body] reqs IH]; intros st resps st' Hrun;
    cbn [createAll] in Hrun.
  - injection Hrun as <- <-. unfold creations. cbn. split; [reflexivity | lia].
  - destruct (createShortUrl now now' body st) as [[resp st1]|] eqn:Hone;
      [| discriminate Hrun].
    destruct (createAll reqs st1) as [[resps1 st2]|] eqn:Hrest; [| discriminate Hrun].
    injection Hrun as <- <-.
    destruct (IH _ _ _ Hrest) as [Hlen Hsize].
    split; [cbn [length]; by rewrite Hlen |].
    rewrite Hsize. unfold creations. rewrite filter_cons.
    apply createShortUrl_cases in Hone
      as [(message & -> & ->) | [[-> ->] | (code & -> & _ & Hfree & Hst)]].
    + rewrite decide_False by (cbn; lia). reflexivity.
    + rewrite decide_False by (cbn; lia). reflexivity.
    + rewrite decide_True by reflexivity.
      rewrite Hst, map_size_insert_None by exact Hfree. cbn [length]. lia.
Qed.

(** X22. Right after a creation answered 201, the statistics of the
    created code show the submitted url, the handler's second clock
    reading as creation time, the reported expiry, and no click. *)
Theorem create_then_stats now now' body st link expiry st' :
  createShortUrl now now' body st = Some (Json 201 (CreatedBody link expiry), st') ->
  exists code url,
    link = shortLinkOf code
    /\ body_url body = Some url
    /\ getUrlStats code (urlStorage st')
       = Json 200 (StatsBody
           {| stats_shortcode := code;
              stats_originalUrl := url;
              stats_createdAt := now';
              stats_expiresAt := expiry;
              totalClicks := 0;
              stats_clicks := [] |}).
Proof.
  intros Hrun.
  apply createShortUrl_stored in Hrun as (code & url & Hurl & _ & Hlink & Hst).
  exists code, url. split; [exact Hlink |]. split; [exact Hurl |].
  rewrite Hst. by rewrite (getUrlStats_present code _ _ (lookup_insert_eq _ _ _)).
Qed.

(** X23. [getAllUrls] lists the stored records and nothing else, each
    record once (in some order): it has as many elements as the registry
    has codes, and a record is listed exactly when it is stored under
    some code. *)
Theorem getAllUrls_lists (storage : gmap string UrlEntry) :
  length (getAllUrls storage) = size storage
  /\ (forall urlEntry,
        urlEntry ∈ getAllUrls storage
        <-> exists code, storage !! code = Some urlEntry)
  /\ (keyed storage -> NoDup (getAllUrls storage)).
Proof.
  unfold getAllUrls. split; [| split].
  - by rewrite length_fmap, length_map_to_list.
  - intros e. rewrite list_elem_of_fmap. split.
    + intros ([k e'] & -> & Hin). exists k. by apply elem_of_map_to_list.
    + intros [k Hk]. exists (k, e). split; [reflexivity |].
      by apply elem_of_map_to_list.
  - intros Hkeyed. apply NoDup_fmap_2_strong; [| apply NoDup_map_to_list].
    intros [k e] [k' e'] Hin Hin' Heq. cbn in Heq. subst e'.
    apply elem_of_map_to_list in Hin, Hin'.
    by rewrite <- (Hkeyed _ _ Hin), <- (Hkeyed _ _ Hin').
Qed.

End Batches.

(* ===================================================================== *)
(** ** The further properties at work on concrete requests *)
(* ===================================================================== *)

Section MoreInstances.

Import ValidationService UrlService UrlController Registry Notions.

Local Existing Instance Sample.platform.

Ltac letter_cases c :=
  destruct c as [[] [] [] [] [] [] [] []]; vm_compute;
  intros Heq; first [discriminate Heq | by left | by right].

Lemma lowerChar_h c : JS.lowerChar c = "h"%char -> c = "h"%char \/ c = "H"%char.
Proof. letter_cases c. Qed.

Lemma lowerChar_t c : JS.lowerChar c = "t"%char -> c = "t"%char \/ c = "T"%char.
Proof. letter_cases c. Qed.

Lemma lowerChar_p c : JS.lowerChar c = "p"%char -> c = "p"%char \/ c = "P"%char.
Proof. letter_cases c. Qed.

Lemma lowerChar_s c : JS.lowerChar c = "s"%char -> c = "s"%char \/ c = "S"%char.
Proof. letter_cases c. Qed.

Lemma afterScheme_shape s :
  Helpers.afterScheme s = true ->
  exists c rest, s = String ":" (String "/" (String "/" (String c rest))).
Proof.
  intros Hs.
  destruct s as [|a s]; [discriminate Hs |].
  destruct a as [[] [] [] [] [] [] [] []]; try discriminate Hs.
  destruct s as [|b s]; [discriminate Hs |].
  destruct b as [[] [] [] [] [] [] [] []]; try discriminate Hs.
  destruct s as [|c s]; [discriminate Hs |].
  destruct c as [[] [] [] [] [] [] [] []]; try discriminate Hs.
  destruct s as [|d rest]; [discriminate Hs |].
  by exists d, rest.
Qed.

(** The sample reader reports [http:] or [https:] for every url that
    matches the pattern of the client. *)
Lemma sample_reader_scheme s urlObj :
  Sample.readURL s = Some urlObj ->
  Helpers.urlPattern s = true ->
  protocol urlObj = "http:" \/ protocol urlObj = "https:".
Proof.
  intros Hread Hpattern.
  destruct s as [|h [|t1 [|t2 [|p rest]]]]; try discriminate Hpattern.
  cbn [Helpers.urlPattern] in Hpattern.
  repeat (apply andb_true_iff in Hpattern as [Hpattern ?]).
  repeat match goal with
         | Hl : Helpers.sameLetter _ _ = true |- _ => apply Ascii.eqb_eq in Hl
         end.
  match goal with Hl : JS.lowerChar h = _ |- _ => apply lowerChar_h in Hl as Hh end.
  match goal with Hl : JS.lowerChar t1 = _ |- _ => apply lowerChar_t in Hl as Ht1 end.
  match goal with Hl : JS.lowerChar t2 = _ |- _ => apply lowerChar_t in Hl as Ht2 end.
  match goal with Hl : JS.lowerChar p = _ |- _ => apply lowerChar_p in Hl as Hp end.
  match goal with Hl : (_ || _) = true |- _ => apply orb_true_iff in Hl as [Hs | Hplain] end.
  - destruct rest as [|s' rest']; [discriminate Hs |].
    apply andb_true_iff in Hs as [Hs Hafter].
    apply Ascii.eqb_eq, lowerChar_s in Hs.
    apply afterScheme_shape in Hafter as (c & r & ->).
    destruct Hh as [-> | ->], Ht1 as [-> | ->], Ht2 as [-> | ->], Hp as [-> | ->],
      Hs as [-> | ->]; simpl in Hread; injection Hread as <-; by right.
  - apply afterScheme_shape in Hplain as (c & r & ->).
    destruct Hh as [-> | ->], Ht1 as [-> | ->], Ht2 as [-> | ->], Hp as [-> | ->];
      simpl in Hread; injection Hread as <-; by left.
Qed.

Lemma validateUrl_normal_form_witness :
  isValid (validateUrl (Some " https://example.com/x ")) = true
  /\ tidy (JS.trim " https://example.com/x ")
  /\ ~ occurs " " (JS.trim " https://example.com/x ")
  /\ validateUrl (Some (JS.trim " https://example.com/x "))
     = validateUrl (Some " https://example.com/x ")
  /\ normalizedUrl (validateUrl (Some (JS.trim " https://example.com/x ")))
     = Some (JS.trim " https://example.com/x ").
Proof.
  split; [vm_compute; reflexivity |].
  refine (validateUrl_normal_form " https://example.com/x " _ _);
    vm_compute; reflexivity.
Defined.


Lemma createShortUrl_adds_one_witness :
  exists code urlEntry,
    "http://localhost:3100/abcd12" = shortLinkOf code
    /\ (∅ : gmap string UrlEntry) !! code = None
    /\ ({["abcd12" := Sample.entry]} : gmap string UrlEntry) !! code = Some urlEntry
    /\ size ({["abcd12" := Sample.entry]} : gmap string UrlEntry)
       = S (size (∅ : gmap string UrlEntry))
    /\ (forall other old,
          (∅ : gmap string UrlEntry) !! other = Some old ->
          ({["abcd12" := Sample.entry]} : gmap string UrlEntry) !! other = Some old)
    /\ shortcode urlEntry = code
    /\ createdAt urlEntry = 1000
    /\ expiresAt urlEntry = 1801000
    /\ clicks urlEntry = [].
Proof.
  refine (createShortUrl_adds_one 1000 1000 Sample.custom (Sample.state ∅ [])
            "http://localhost:3100/abcd12" 1801000
            (Sample.state {["abcd12" := Sample.entry]} []) _).
  vm_compute. reflexivity.
Defined.

Lemma createShortUrl_expiry_witness :
  1000 + 60000 <= 1801000 <= 1000 + 2592000000
  /\ (body_validity Sample.custom = JS.Absent \/ body_validity Sample.custom = JS.Null ->
      1801000 = 1000 + 1800000)
  /\ (forall z, Design.denotes (body_validity Sample.custom) z ->
                1801000 = 1000 + z * 60000).
Proof.
  refine (createShortUrl_expiry 1000 1000 Sample.custom (Sample.state ∅ [])
            "http://localhost:3100/abcd12" 1801000
            (Sample.state {["abcd12" := Sample.entry]} []) _).
  vm_compute. reflexivity.
Defined.

Lemma records_only_grow_witness :
  exists st',
    run Sample.calls (Sample.state {["abcd12" := Sample.entry]} Sample.draw) = Some st'
    /\ exists urlEntry',
         urlStorage st' !! "abcd12" = Some urlEntry' /\ extends Sample.entry urlEntry'.
Proof.
  eexists. split; [vm_compute; reflexivity |].
  refine (records_only_grow Sample.calls
            (Sample.state {["abcd12" := Sample.entry]} Sample.draw) _
            "abcd12" Sample.entry _ _ _); vm_compute; reflexivity.
Defined.

Lemma registry_keyed_witness :
  exists st,
    run (CreateShortUrl 1000 1000 Sample.custom :: Sample.calls)
      {| urlStorage := ∅; entropy := Sample.draw |} = Some st
    /\ keyed (urlStorage st)
    /\ (forall code stats,
          getUrlStats code (urlStorage st) = Json 200 (StatsBody stats) ->
          stats_shortcode stats = code)
    /\ (forall code urlEntry,
          getUrl code (urlStorage st) = Some urlEntry -> shortcode urlEntry = code).
Proof.
  eexists. split; [vm_compute; reflexivity |].
  refine (registry_keyed (CreateShortUrl 1000 1000 Sample.custom :: Sample.calls)
            Sample.draw _ _).
  vm_compute. reflexivity.
Defined.

Lemma redirectAll_counted_witness :
  redirects (redirectAll Sample.visits {["abcd12" := Sample.entry]}).1 = 2%nat
  /\ exists stats stats',
       getUrlStats "abcd12" {["abcd12" := Sample.entry]} = Json 200 (StatsBody stats)
       /\ getUrlStats "abcd12"
            (redirectAll Sample.visits {["abcd12" := Sample.entry]}).2
          = Json 200 (StatsBody stats')
       /\ totalClicks stats'
          = (totalClicks stats
             + redirects (redirectAll Sample.visits {["abcd12" := Sample.entry]}).1)%nat
       /\ length (redirectAll Sample.visits {["abcd12" := Sample.entry]}).1
          = length Sample.visits.
Proof.
  split; [vm_compute; reflexivity |].
  refine (redirectAll_counted Sample.visits {["abcd12" := Sample.entry]}
            "abcd12" Sample.entry _ _).
  - repeat constructor.
  - vm_compute. reflexivity.
Defined.

Lemma sweep_then_redirect_witness :
  (redirectToUrl 6000 6000 (Sample.request "abcd12")
     (cleanupExpiredUrls 5000 {["abcd12" := Sample.entry]}).2).2
  = (cleanupExpiredUrls 5000
       (redirectToUrl 6000 6000 (Sample.request "abcd12")
          {["abcd12" := Sample.entry]}).2).2
  /\ ((redirectToUrl 6000 6000 (Sample.request "abcd12")
         (cleanupExpiredUrls 5000 {["abcd12" := Sample.entry]}).2).1
      = (redirectToUrl 6000 6000 (Sample.request "abcd12")
           {["abcd12" := Sample.entry]}).1
      \/ ((redirectToUrl 6000 6000 (Sample.request "abcd12")
             {["abcd12" := Sample.entry]}).1 = gone
          /\ (redirectToUrl 6000 6000 (Sample.request "abcd12")
                (cleanupExpiredUrls 5000 {["abcd12" := Sample.entry]}).2).1
             = notFound)).
Proof.
  refine (sweep_then_redirect 5000 6000 6000 (Sample.request "abcd12")
            {["abcd12" := Sample.entry]} _).
  lia.
Defined.

Lemma sweep_again_witness :
  (cleanupExpiredUrls 99999999 {["abcd12" := Sample.entry]}).1 = 1%nat
  /\ cleanupExpiredUrls 99999999
       (cleanupExpiredUrls 99999999 {["abcd12" := Sample.entry]}).2
     = (0%nat, (cleanupExpiredUrls 99999999 {["abcd12" := Sample.entry]}).2).
Proof.
  split; [vm_compute; reflexivity |].
  refine (sweep_again 99999999 99999999 {["abcd12" := Sample.entry]} _).
  lia.
Defined.

Lemma client_validity_accepted_witness :
  Helpers.validateValidity " 45 minutes"
  = {| isValid := true; error := None; normalizedUrl := None;
       value := Some (JS.ofZ 45) |}
  /\ exists z,
       1 <= z <= 43200
       /\ value (Helpers.validateValidity " 45 minutes") = Some (JS.ofZ z)
       /\ validateValidity (JS.ofZ z) = Helpers.validateValidity " 45 minutes"
       /\ (JS.trim " 45 minutes" = EmptyString -> z = 30).
Proof.
  split; [vm_compute; reflexivity |].
  refine (client_validity_accepted " 45 minutes" _).
  vm_compute. reflexivity.
Defined.

Lemma form_entry_reaches_registry_witness :
  Helpers.validatedData (Helpers.validateUrlEntry SampleForm.row)
  = Sample.body "HTTPS://Example.com/a" (JS.ofZ 45) (Some "Abc123")
  /\ isValid (validateUrl
                (body_url (Helpers.validatedData (Helpers.validateUrlEntry SampleForm.row))))
     = true
  /\ isValid (validateValidity
                (body_validity (Helpers.validatedData (Helpers.validateUrlEntry SampleForm.row))))
     = true
  /\ (forall code,
        body_shortcode (Helpers.validatedData (Helpers.validateUrlEntry SampleForm.row))
        = Some code ->
        isValid (validateShortcode (Some code)) = true)
  /\ (forall now now' st resp st',
        createShortUrl now now'
          (Helpers.validatedData (Helpers.validateUrlEntry SampleForm.row)) st
        = Some (resp, st') ->
        statusOf resp = 201 \/ statusOf resp = 409).
Proof.
  split; [vm_compute; reflexivity |].
  refine (form_entry_reaches_registry SampleForm.row sample_reader_scheme _).
  vm_compute. reflexivity.
Defined.

Lemma getExpiryStatus_units_witness :
  Helpers.getExpiryStatus (Some 1801000) 1000 1001
  = {| Helpers.status := "Expires in 29 minutes"; Helpers.color := "warning" |}
  /\ exists n,
       (Helpers.getExpiryStatus (Some 1801000) 1000 1001
        = {| Helpers.status := ("Expires in " ++ pretty n ++ " minutes")%string;
             Helpers.color := "warning" |}
        /\ 0 <= n < 60 /\ n * 60000 <= 1801000 - 1001 < (n + 1) * 60000)
       \/ (Helpers.getExpiryStatus (Some 1801000) 1000 1001
           = {| Helpers.status := ("Expires in " ++ pretty n ++ " hours")%string;
                Helpers.color := "info" |}
           /\ 1 <= n < 24 /\ n * 3600000 <= 1801000 - 1001 < (n + 1) * 3600000)
       \/ (Helpers.getExpiryStatus (Some 1801000) 1000 1001
           = {| Helpers.status := ("Expires in " ++ pretty n ++ " days")%string;
                Helpers.color := "success" |}
           /\ 1 <= n /\ n * 86400000 <= 1801000 - 1001 < (n + 1) * 86400000).
Proof.
  split; [vm_compute; reflexivity |].
  refine (getExpiryStatus_units 1801000 1000 1001 _ _); lia.
Defined.

Lemma expiry_shown_as_served_witness :
  (Helpers.getExpiryStatus (Some (expiresAt Sample.entry)) 1801000 1801000
   = {| Helpers.status := "Expired"; Helpers.color := "error" |}
   <-> (redirectToUrl 1801000 1801000 (Sample.request "abcd12")
          {["abcd12" := Sample.entry]}).1 = gone
       \/ 1801000 = expiresAt Sample.entry)
  /\ (1801000 = expiresAt Sample.entry ->
      (redirectToUrl 1801000 1801000 (Sample.request "abcd12")
         {["abcd12" := Sample.entry]}).1
      = Redirect 302 (originalUrl Sample.entry))
  /\ Helpers.getExpiryStatus None 1801000 1801000
     = {| Helpers.status := "Expired"; Helpers.color := "error" |}.
Proof.
  refine (expiry_shown_as_served 1801000 1801000 1801000 (Sample.request "abcd12")
            {["abcd12" := Sample.entry]} Sample.entry _).
  vm_compute. reflexivity.
Defined.

Lemma createAll_counted_witness :
  exists resps st',
    createAll Sample.batch (Sample.state ∅ Sample.draw) = Some (resps, st')
    /\ map statusOf resps = [201; 409; 201]
    /\ length resps = length Sample.batch
    /\ size (urlStorage st')
       = (size (urlStorage (Sample.state ∅ Sample.draw)) + creations resps)%nat.
Proof.
  eexists _, _. split; [vm_compute; reflexivity |].
  split; [vm_compute; reflexivity |].
  refine (createAll_counted Sample.batch (Sample.state ∅ Sample.draw) _ _ _).
  vm_compute. reflexivity.
Defined.

Lemma create_then_stats_witness :
  exists code url,
    "http://localhost:3100/abcd12" = shortLinkOf code
    /\ body_url Sample.custom = Some url
    /\ getUrlStats code {["abcd12" := Sample.entry]}
       = Json 200 (StatsBody
           {| stats_shortcode := code;
              stats_originalUrl := url;
              stats_createdAt := 1000;
              stats_expiresAt := 1801000;
              totalClicks := 0;
              stats_clicks := [] |}).
Proof.
  refine (create_then_stats 1000 1000 Sample.custom (Sample.state ∅ [])
            "http://localhost:3100/abcd12" 1801000
            (Sample.state {["abcd12" := Sample.entry]} []) _).
  vm_compute. reflexivity.
Defined.

Example client_validity_reads_leading_digits :
  value (Helpers.validateValidity "12abc") = Some (JS.ofZ 12)
  /\ isValid (validateValidity (JS.Str "12abc")) = false
  /\ isValid (Helpers.validateValidity "abc") = false
  /\ isValid (Helpers.validateValidity "0") = false
  /\ isValid (Helpers.validateValidity "43201") = false
  /\ value (Helpers.validateValidity "   ") = Some (JS.ofZ 30).
Proof. repeat split; vm_compute; reflexivity. Qed.

Example client_batch_flags_duplicate :
  map (fun r => Helpers.entry_isValid (Helpers.validation r))
      (Helpers.validateMultipleEntries
         [SampleForm.row;
          {| Helpers.entry_url := "https://example.org";
             Helpers.entry_validity := "";
             Helpers.entry_shortcode := "ABC123" |};
          {| Helpers.entry_url := "https://example.net";
             Helpers.entry_validity := "";
             Helpers.entry_shortcode := "" |}])
  = [true; false; true].
Proof. vm_compute. reflexivity. Qed.

Example truncateUrl_cuts :
  Helpers.truncateUrl "https://example.com/a/long/path" 19 = "https://example.com..."
  /\ Helpers.truncateUrl "https://example.com" 50 = "https://example.com".
Proof. split; reflexivity. Qed.

Lemma getTimeAgo_units_witness :
  Helpers.getTimeAgo (Some 1000) 7262000 = "2 hours ago"
  /\ (exists n,
        (Helpers.getTimeAgo (Some 1000) 7262000 = (pretty n ++ " seconds ago")%string
         /\ 0 <= n < 60 /\ n * 1000 <= 7262000 - 1000 < (n + 1) * 1000)
        \/ (Helpers.getTimeAgo (Some 1000) 7262000 = (pretty n ++ " minutes ago")%string
            /\ 1 <= n < 60 /\ n * 60000 <= 7262000 - 1000 < (n + 1) * 60000)
        \/ (Helpers.getTimeAgo (Some 1000) 7262000 = (pretty n ++ " hours ago")%string
            /\ 1 <= n < 24 /\ n * 3600000 <= 7262000 - 1000 < (n + 1) * 3600000)
        \/ (Helpers.getTimeAgo (Some 1000) 7262000 = (pretty n ++ " days ago")%string
            /\ 1 <= n /\ n * 86400000 <= 7262000 - 1000 < (n + 1) * 86400000))
  /\ Helpers.getTimeAgo None 7262000 = "NaN days ago".
Proof.
  split; [vm_compute; reflexivity |].
  refine (getTimeAgo_units 1000 7262000 _). lia.
Defined.

End MoreInstances.
